(** * express-openapi-validator: the [OpenApiValidator] installer

    A shallow embedding of [src/index.ts]: option validation and
    normalisation in the constructor, the order in which [installMiddleware]
    registers the pipeline on the Express application, and the resolution of
    operation handlers from handler modules.

    JavaScript values are embedded as the inductive [JsValue]; plain objects
    are finite maps from property names to values.  What a value inherits
    from the builtin prototypes, the wording of the engine's [TypeError]s
    and what Express accepts as a route handler are taken from a [Host].
    Code that throws is embedded in a small state-and-exception monad [M]
    whose state records what has been registered on the application, which
    modules have been [require]d and which deprecation warnings have been
    printed.

    [install] and [installSync] only load the document and hand it to
    [installMiddleware]; they are embedded after the installer, with the
    callback of [app.param]. *)

From Stdlib Require Import Ascii String.
From stdpp Require Import gmap strings list fin_maps sorting.

Set Warnings "-register-all".
Set Default Proof Using "Type".

(** ** JavaScript values *)

(** Numbers are integers here: no option or schema entry read by this file
    carries a fraction or [NaN].  A function value is identified by a name.
    An object is a plain object, given by the finite map of its own
    string-keyed properties; what it inherits from its prototype is told by
    the [Host]. *)
Inductive JsValue : Type :=
  | JUndefined
  | JNull
  | JBool (b : bool)
  | JNum (n : Z)
  | JStr (s : string)
  | JFun (name : string)
  | JArr (items : list JsValue)
  | JObj (props : gmap string JsValue).

(** [ToBoolean]: what [if (v)], [!v], [a && b] and [a || b] test. *)
Definition to_boolean (v : JsValue) : bool :=
  match v with
  | JUndefined | JNull => false
  | JBool b => b
  | JNum n => negb (n =? 0)%Z
  | JStr s => negb (String.eqb s "")
  | JFun _ | JArr _ | JObj _ => true
  end.

(** [v == null] *)
Definition is_nullish (v : JsValue) : bool :=
  match v with
  | JUndefined | JNull => true
  | _ => false
  end.

(** [typeof v] *)
Definition typeof (v : JsValue) : string :=
  match v with
  | JUndefined => "undefined"
  | JNull | JArr _ | JObj _ => "object"
  | JBool _ => "boolean"
  | JNum _ => "number"
  | JStr _ => "string"
  | JFun _ => "function"
  end.

(** [Array.isArray(v)] *)
Definition isArray (v : JsValue) : bool :=
  match v with
  | JArr _ => true
  | _ => false
  end.

(** [v === true] *)
Definition is_true (v : JsValue) : bool :=
  match v with
  | JBool true => true
  | _ => false
  end.

(** [a || b] as a value *)
Definition js_or (a b : JsValue) : JsValue :=
  if to_boolean a then a else b.

(** [o.k] for a plain object [o] and one of the names [handlers],
    [components], [securitySchemes], [allowUnknownQueryParameters],
    [removeAdditional] and [pathParams], under which the source reads the
    options, the document and the request metadata.  No builtin prototype
    has a member of one of these names, so the read yields the own
    property, or [undefined].  The reads in the memo and in the handler
    modules go through [obj_member] and [get_member]. *)
Definition obj_get (o : gmap string JsValue) (k : string) : JsValue :=
  default JUndefined (o !! k).

(** [v?.k] at one of these names: a value that is not an object has no
    such property either. *)
Definition opt_get (v : JsValue) (k : string) : JsValue :=
  match v with
  | JObj o => obj_get o k
  | _ => JUndefined
  end.

(** ** Exceptions *)

(** [Error(msg)] and [ono(msg)] both build an [Error] carrying [msg];
    [TypeError] is what the engine raises on a property read from
    [undefined] or [null]. *)
Inductive Exn : Type :=
  | Error (message : string)
  | TypeError (message : string).

Definition message (e : Exn) : string :=
  match e with
  | Error m | TypeError m => m
  end.

Inductive Outcome (A : Type) : Type :=
  | Ret (a : A)
  | Throw (e : Exn).
Arguments Ret {A} a.
Arguments Throw {A} e.

(** ** The engine and Express *)

(** What this file takes from the JavaScript engine and from Express.

    [inherited k] is what a read [o[k]] of a plain object yields when [k]
    is not an own property of [o]: the member of that name of
    [Object.prototype], or [undefined].  The name [__proto__] reads as the
    prototype itself, an object.

    [builtin_member v k] is what [v[k]] yields for a value that has
    properties and is not a plain object, that is a number, a string, a
    boolean, an array or a function: an element or the length of a string
    or an array, the member of that name of the prototypes of [v], or
    [undefined].

    [read_error k v] is the message of the [TypeError] for a read of the
    property [k] from [v], which is [undefined] or [null]; its wording
    changes from one version of the engine to the other.

    [handler_check verb path fn] is what the call [app[verb](path, fn)]
    throws, if anything: Express registers a function and refuses a value
    it cannot call. *)
Record Host : Type := {
  inherited : string → JsValue;
  builtin_member : JsValue → string → JsValue;
  read_error : string → JsValue → string;
  handler_check : string → string → JsValue → option Exn;
  inherited_proto : to_boolean (inherited "__proto__") = true;
}.

(** [o[k]] for a plain object [o] and a computed key: the own property,
    else what the prototype gives. *)
Definition obj_member (h : Host) (o : gmap string JsValue) (k : string) :
    JsValue :=
  default (inherited h k) (o !! k).

(** [v[k]] for an arbitrary value and a computed key *)
Definition get_member (h : Host) (v : JsValue) (k : string) :
    Outcome JsValue :=
  match v with
  | JUndefined | JNull => Throw (TypeError (read_error h k v))
  | JObj o => Ret (obj_member h o k)
  | _ => Ret (builtin_member h v k)
  end.

(** [v.k] for an arbitrary value and one of the names [obj_get] is for *)
Definition get_prop (h : Host) (v : JsValue) (k : string) : Outcome JsValue :=
  match v with
  | JUndefined | JNull => Throw (TypeError (read_error h k v))
  | JObj o => Ret (obj_get o k)
  | _ => Ret JUndefined
  end.

(** ** The option record *)

(** [OpenApiValidatorOpts]; an omitted option reads as [JUndefined], which
    is also what a [delete]d one reads as. *)
Record OpenApiValidatorOpts : Type := {
  apiSpec : JsValue;
  validateResponses : JsValue;
  validateRequests : JsValue;
  validateSecurity : JsValue;
  securityHandlers : JsValue;
  ignorePaths : JsValue;
  coerceTypes : JsValue;
  unknownFormats : JsValue;
  fileUploader : JsValue;
  multerOpts : JsValue;
  refParser : JsValue;
  operationHandlers : JsValue;
  validateFormats : JsValue;
}.

(** [options.f = v], one setter per field the constructor assigns.  There is
    none for [unknownFormats]: the source never assigns it. *)
Definition set_validateResponses (v : JsValue) (o : OpenApiValidatorOpts) :
    OpenApiValidatorOpts :=
  {| apiSpec := apiSpec o; validateResponses := v;
     validateRequests := validateRequests o;
     validateSecurity := validateSecurity o;
     securityHandlers := securityHandlers o; ignorePaths := ignorePaths o;
     coerceTypes := coerceTypes o; unknownFormats := unknownFormats o;
     fileUploader := fileUploader o; multerOpts := multerOpts o;
     refParser := refParser o; operationHandlers := operationHandlers o;
     validateFormats := validateFormats o |}.

Definition set_validateRequests (v : JsValue) (o : OpenApiValidatorOpts) :
    OpenApiValidatorOpts :=
  {| apiSpec := apiSpec o; validateResponses := validateResponses o;
     validateRequests := v; validateSecurity := validateSecurity o;
     securityHandlers := securityHandlers o; ignorePaths := ignorePaths o;
     coerceTypes := coerceTypes o; unknownFormats := unknownFormats o;
     fileUploader := fileUploader o; multerOpts := multerOpts o;
     refParser := refParser o; operationHandlers := operationHandlers o;
     validateFormats := validateFormats o |}.

Definition set_validateSecurity (v : JsValue) (o : OpenApiValidatorOpts) :
    OpenApiValidatorOpts :=
  {| apiSpec := apiSpec o; validateResponses := validateResponses o;
     validateRequests := validateRequests o; validateSecurity := v;
     securityHandlers := securityHandlers o; ignorePaths := ignorePaths o;
     coerceTypes := coerceTypes o; unknownFormats := unknownFormats o;
     fileUploader := fileUploader o; multerOpts := multerOpts o;
     refParser := refParser o; operationHandlers := operationHandlers o;
     validateFormats := validateFormats o |}.

Definition set_securityHandlers (v : JsValue) (o : OpenApiValidatorOpts) :
    OpenApiValidatorOpts :=
  {| apiSpec := apiSpec o; validateResponses := validateResponses o;
     validateRequests := validateRequests o;
     validateSecurity := validateSecurity o; securityHandlers := v;
     ignorePaths := ignorePaths o; coerceTypes := coerceTypes o;
     unknownFormats := unknownFormats o; fileUploader := fileUploader o;
     multerOpts := multerOpts o; refParser := refParser o;
     operationHandlers := operationHandlers o;
     validateFormats := validateFormats o |}.

Definition set_coerceTypes (v : JsValue) (o : OpenApiValidatorOpts) :
    OpenApiValidatorOpts :=
  {| apiSpec := apiSpec o; validateResponses := validateResponses o;
     validateRequests := validateRequests o;
     validateSecurity := validateSecurity o;
     securityHandlers := securityHandlers o; ignorePaths := ignorePaths o;
     coerceTypes := v; unknownFormats := unknownFormats o;
     fileUploader := fileUploader o; multerOpts := multerOpts o;
     refParser := refParser o; operationHandlers := operationHandlers o;
     validateFormats := validateFormats o |}.

Definition set_fileUploader (v : JsValue) (o : OpenApiValidatorOpts) :
    OpenApiValidatorOpts :=
  {| apiSpec := apiSpec o; validateResponses := validateResponses o;
     validateRequests := validateRequests o;
     validateSecurity := validateSecurity o;
     securityHandlers := securityHandlers o; ignorePaths := ignorePaths o;
     coerceTypes := coerceTypes o; unknownFormats := unknownFormats o;
     fileUploader := v; multerOpts := multerOpts o;
     refParser := refParser o; operationHandlers := operationHandlers o;
     validateFormats := validateFormats o |}.

Definition set_multerOpts (v : JsValue) (o : OpenApiValidatorOpts) :
    OpenApiValidatorOpts :=
  {| apiSpec := apiSpec o; validateResponses := validateResponses o;
     validateRequests := validateRequests o;
     validateSecurity := validateSecurity o;
     securityHandlers := securityHandlers o; ignorePaths := ignorePaths o;
     coerceTypes := coerceTypes o; unknownFormats := unknownFormats o;
     fileUploader := fileUploader o; multerOpts := v;
     refParser := refParser o; operationHandlers := operationHandlers o;
     validateFormats := validateFormats o |}.

Definition set_refParser (v : JsValue) (o : OpenApiValidatorOpts) :
    OpenApiValidatorOpts :=
  {| apiSpec := apiSpec o; validateResponses := validateResponses o;
     validateRequests := validateRequests o;
     validateSecurity := validateSecurity o;
     securityHandlers := securityHandlers o; ignorePaths := ignorePaths o;
     coerceTypes := coerceTypes o; unknownFormats := unknownFormats o;
     fileUploader := fileUploader o; multerOpts := multerOpts o;
     refParser := v; operationHandlers := operationHandlers o;
     validateFormats := validateFormats o |}.

Definition set_operationHandlers (v : JsValue) (o : OpenApiValidatorOpts) :
    OpenApiValidatorOpts :=
  {| apiSpec := apiSpec o; validateResponses := validateResponses o;
     validateRequests := validateRequests o;
     validateSecurity := validateSecurity o;
     securityHandlers := securityHandlers o; ignorePaths := ignorePaths o;
     coerceTypes := coerceTypes o; unknownFormats := unknownFormats o;
     fileUploader := fileUploader o; multerOpts := multerOpts o;
     refParser := refParser o; operationHandlers := v;
     validateFormats := validateFormats o |}.

Definition set_validateFormats (v : JsValue) (o : OpenApiValidatorOpts) :
    OpenApiValidatorOpts :=
  {| apiSpec := apiSpec o; validateResponses := validateResponses o;
     validateRequests := validateRequests o;
     validateSecurity := validateSecurity o;
     securityHandlers := securityHandlers o; ignorePaths := ignorePaths o;
     coerceTypes := coerceTypes o; unknownFormats := unknownFormats o;
     fileUploader := fileUploader o; multerOpts := multerOpts o;
     refParser := refParser o; operationHandlers := operationHandlers o;
     validateFormats := v |}.

(** ** The Express application and the effect monad *)

(** A route of the OpenAPI context.  [schema] is the operation object of
    the document; the three entries this file reads from it
    ([operationId], [x-eov-operation-id], [x-eov-operation-handler]) are
    strings, and a missing entry reads as [undefined]: no prototype has a
    member of one of these names. *)
Record RouteMetadata : Type := {
  expressRoute : string;
  method : string;
  pathParams : list string;
  schema : gmap string string;
}.

(** [OpenApiContext]: the fields read here. *)
Record OpenApiContext : Type := {
  apiDoc : gmap string JsValue;
  routes : list RouteMetadata;
}.

(** The middlewares built by [./middlewares], each with the arguments it is
    built from. *)
Inductive Middleware : Type :=
  | applyOpenApiMetadata (context : OpenApiContext)
  | multipart (context : OpenApiContext) (options : JsValue)
  | security (context : OpenApiContext) (securityHandlers : JsValue)
  | RequestValidator (apiDoc : gmap string JsValue) (options : JsValue)
  | ResponseValidator (apiDoc : gmap string JsValue) (options : JsValue).

(** One registration on the application: [app.param(name, override)],
    [app.use(mw)] or [app[verb](path, handler)]. *)
Inductive Layer : Type :=
  | app_param (name : string)
  | app_use (mw : Middleware)
  | app_verb (verb : string) (path : string) (handler : JsValue).

(** The mutable world: the application's registrations in the order they
    were made, the module paths passed to [require] in call order, and the
    deprecation warnings printed. *)
Record World : Type := {
  layers : list Layer;
  required : list string;
  warnings : list string;
}.

Definition M (A : Type) : Type := World → World * Outcome A.

#[export] Instance M_ret : MRet M := λ A a w, (w, Ret a).
#[export] Instance M_bind : MBind M := λ A B f m w,
  match m w with
  | (w', Ret a) => f a w'
  | (w', Throw e) => (w', Throw e)
  end.

Definition throw {A : Type} (e : Exn) : M A := λ w, (w, Throw e).

(** Lift a pure computation that may throw. *)
Definition lift {A : Type} (o : Outcome A) : M A := λ w, (w, o).

(** [if (c) body] with no else branch *)
Definition when (c : bool) (body : M unit) : M unit :=
  if c then body else mret tt.

Definition add_layers (w : World) (ls : list Layer) : World :=
  {| layers := layers w ++ ls; required := required w;
     warnings := warnings w |}.

Definition add_required (w : World) (modulePath : string) : World :=
  {| layers := layers w; required := required w ++ [modulePath];
     warnings := warnings w |}.

Definition register (l : Layer) : M unit := λ w, (add_layers w [l], Ret tt).

Definition deprecationWarning (msg : string) : M unit := λ w,
  ({| layers := layers w; required := required w;
      warnings := warnings w ++ [msg] |}, Ret tt).

(** ** The constructor *)

Definition validateOptions (options : OpenApiValidatorOpts) : M unit :=
  when (negb (to_boolean (apiSpec options)))
    (throw (Error "apiSpec required"));;
  when (negb (is_nullish (securityHandlers options)))
    (when (negb (String.eqb (typeof (securityHandlers options)) "object")
           || isArray (securityHandlers options))
       (throw (Error "securityHandlers must be an object or undefined"));;
     deprecationWarning
       "securityHandlers is deprecated. Use validateSecurities.handlers instead.");;
  when (to_boolean (securityHandlers options)
        && to_boolean (validateSecurity options))
    (throw (Error "securityHandlers and validateSecurity may not be used together. Use validateSecurities.handlers to specify handlers."));;
  when (negb (is_nullish (multerOpts options)))
    (when (negb (String.eqb (typeof (multerOpts options)) "object")
           || isArray (multerOpts options))
       (throw (Error "multerOpts must be an object or undefined"));;
     deprecationWarning
       "multerOpts is deprecated. Use fileUploader instead.");;
  when (to_boolean (multerOpts options) && to_boolean (fileUploader options))
    (throw (Error "multerOpts and fileUploader may not be used together. Use fileUploader to specify upload options."));;
  if String.eqb (typeof (unknownFormats options)) "boolean" then
    when (negb (to_boolean (unknownFormats options)))
      (throw (Error "unknownFormats must contain an array of unknownFormats, 'ignore' or true"))
  else
    when (String.eqb (typeof (unknownFormats options)) "string"
          && negb (if unknownFormats options is JStr s
                   then String.eqb s "ignore" else false)
          && negb (isArray (unknownFormats options)))
      (throw (Error "unknownFormats must contain an array of unknownFormats, 'ignore' or true")).

Definition normalizeOptions (options : OpenApiValidatorOpts) :
    OpenApiValidatorOpts :=
  let options :=
    if to_boolean (securityHandlers options) then
      set_securityHandlers JUndefined
        (set_validateSecurity
           (JObj {[ "handlers" := securityHandlers options ]}) options)
    else options in
  if to_boolean (multerOpts options) then
    set_multerOpts JUndefined (set_fileUploader (multerOpts options) options)
  else options.

(** [if (options.f == null) options.f = v] *)
Definition default_to (get : OpenApiValidatorOpts → JsValue)
    (set : JsValue → OpenApiValidatorOpts → OpenApiValidatorOpts)
    (v : JsValue) (options : OpenApiValidatorOpts) : OpenApiValidatorOpts :=
  if is_nullish (get options) then set v options else options.

(** The statements of the constructor after the two calls, lines 37-61.
    Line 37 evaluates [options.unknownFormats === true] and drops the
    result. *)
Definition applyDefaults (options : OpenApiValidatorOpts) :
    OpenApiValidatorOpts :=
  let options :=
    if is_nullish (unknownFormats options)
    then (let _ := is_true (unknownFormats options) in options)
    else options in
  let options := default_to coerceTypes set_coerceTypes (JBool true) options in
  let options :=
    default_to validateRequests set_validateRequests (JBool true) options in
  let options :=
    default_to validateResponses set_validateResponses (JBool false) options in
  let options :=
    default_to validateSecurity set_validateSecurity (JBool true) options in
  let options := default_to fileUploader set_fileUploader (JObj ∅) options in
  let options :=
    default_to refParser set_refParser
      (JObj {[ "mode" := JStr "bundle" ]}) options in
  let options :=
    default_to operationHandlers set_operationHandlers (JBool false) options in
  let options :=
    default_to validateFormats set_validateFormats (JStr "fast") options in
  let options :=
    if is_true (validateResponses options) then
      set_validateResponses
        (JObj {[ "removeAdditional" := JBool false ]}) options
    else options in
  let options :=
    if is_true (validateRequests options) then
      set_validateRequests
        (JObj {[ "allowUnknownQueryParameters" := JBool false ]}) options
    else options in
  if is_true (validateSecurity options) then
    set_validateSecurity (JObj ∅) options
  else options.

(** [new OpenApiValidator(options)]: the value of [this.options]. *)
Definition constructor (options : OpenApiValidatorOpts) :
    M OpenApiValidatorOpts :=
  validateOptions options;;
  mret (applyDefaults (normalizeOptions options)).

(** ** Library functions used by the installer *)

(** [_uniq] of lodash: the first occurrence of each element, in order. *)
Fixpoint uniq (l : list string) : list string :=
  match l with
  | [] => []
  | x :: rest => x :: List.filter (λ y, negb (String.eqb y x)) (uniq rest)
  end.

(** [String.prototype.toLowerCase] on the ASCII letters, which is all an
    HTTP method name has. *)
Definition lower_ascii (c : ascii) : ascii :=
  let n := nat_of_ascii c in
  if (65 <=? n) && (n <=? 90) then ascii_of_nat (n + 32) else c.

Fixpoint toLowerCase (s : string) : string :=
  match s with
  | EmptyString => EmptyString
  | String c rest => String (lower_ascii c) (toLowerCase rest)
  end.

(** [for (const x of l) body(x)] *)
Fixpoint for_of {A : Type} (l : list A) (body : A → M unit) : M unit :=
  match l with
  | [] => mret tt
  | x :: rest => body x;; for_of rest body
  end.

(** A read of [schema[k]] *)
Definition schema_get (s : gmap string string) (k : string) : JsValue :=
  from_option JStr JUndefined (s !! k).

(** ** The installer *)

Section Installer.

(** What lives outside this file: the parsed document type and the
    [OpenApiContext] constructor of [./framework], the engine and
    Express, Node's [require] (which yields the module's exports or
    throws) and [path.join]. *)
Variable Spec : Type.
Variable new_OpenApiContext : Spec → JsValue → OpenApiContext.
Variable h : Host.
Variable require : string → Outcome JsValue.
Variable path_join : string → string → string.

(** [this.options] *)
Variable options : OpenApiValidatorOpts.

(** A call of [require], recorded in the world. *)
Definition call_require (modulePath : string) : M JsValue := λ w,
  (add_required w modulePath, require modulePath).

Definition installPathParams (context : OpenApiContext) : M unit :=
  let pathParams :=
    flat_map
      (λ route,
         if 0 <? length (pathParams route) then pathParams route else [])
      (routes context) in
  for_of (uniq pathParams) (λ p, register (app_param p)).

Definition installMetadataMiddleware (context : OpenApiContext) : M unit :=
  register (app_use (applyOpenApiMetadata context)).

Definition installMultipartMiddleware (context : OpenApiContext) : M unit :=
  register (app_use (multipart context (fileUploader options))).

Definition installSecurityMiddleware (context : OpenApiContext) : M unit :=
  let securityHandlers := opt_get (validateSecurity options) "handlers" in
  register (app_use (security context securityHandlers)).

(** The object literal passed to [new middlewares.RequestValidator] *)
Definition request_validator_options
    (allowUnknownQueryParameters : JsValue) : JsValue :=
  JObj {[ "nullable" := JBool true;
          "coerceTypes" := coerceTypes options;
          "removeAdditional" := JBool false;
          "useDefaults" := JBool true;
          "unknownFormats" := unknownFormats options;
          "allowUnknownQueryParameters" := allowUnknownQueryParameters;
          "format" := validateFormats options ]}.

(** The object literal passed to [new middlewares.ResponseValidator] *)
Definition response_validator_options (removeAdditional : JsValue) :
    JsValue :=
  JObj {[ "nullable" := JBool true;
          "coerceTypes" := coerceTypes options;
          "removeAdditional" := removeAdditional;
          "unknownFormats" := unknownFormats options;
          "format" := validateFormats options ]}.

Definition installRequestValidationMiddleware (context : OpenApiContext) :
    M unit :=
  allowUnknownQueryParameters ←
    lift (get_prop h (validateRequests options)
            "allowUnknownQueryParameters");
  register (app_use (RequestValidator (apiDoc context)
                       (request_validator_options
                          allowUnknownQueryParameters))).

Definition installResponseValidationMiddleware (context : OpenApiContext) :
    M unit :=
  removeAdditional ←
    lift (get_prop h (validateResponses options) "removeAdditional");
  register (app_use (ResponseValidator (apiDoc context)
                       (response_validator_options removeAdditional))).

(** [schema['x-eov-operation-id'] || schema['operationId']] *)
Definition operation_id (s : gmap string string) : JsValue :=
  js_or (schema_get s "x-eov-operation-id") (schema_get s "operationId").

(** Lines 265-271: the module to look the handler up in, loaded when
    [tmpModules[modulePath]] does not read as truthy, and replaced by its
    default export when it has no truthy [oId].  The memo [tmpModules] is
    a plain object: a read of it sees what [{}] inherits, and the
    assignments add an own property.  (An assignment to [__proto__] would
    not; that name always reads as truthy, so the branch that assigns is
    not taken for it.) *)
Definition load_module (tmpModules : gmap string JsValue)
    (modulePath oId : string) : M (gmap string JsValue) :=
  if negb (to_boolean (obj_member h tmpModules modulePath)) then
    loaded ← call_require modulePath;
    let tmpModules := <[modulePath := loaded]> tmpModules in
    found ← lift (get_member h (obj_member h tmpModules modulePath) oId);
    if negb (to_boolean found) then
      dflt ← lift (get_member h (obj_member h tmpModules modulePath)
                     "default");
      mret (<[modulePath := dflt]> tmpModules)
    else mret tmpModules
  else mret tmpModules.

(** The message of the error of lines 274-276 *)
Definition could_not_find (oId modulePath : string) : string :=
  "Could not find 'x-eov-operation-handler' with id " +:+ oId
  +:+ " in module '" +:+ modulePath +:+ "'. Make sure operation '" +:+ oId
  +:+ "' defined in your API spec exists as a handler function in '"
  +:+ modulePath +:+ "'.".

(** [app[verb](path, fn)]: the registration is made unless Express
    refuses the handler. *)
Definition app_method (verb path : string) (fn : JsValue) : M unit :=
  match handler_check h verb path fn with
  | Some e => throw e
  | None => register (app_verb verb path fn)
  end.

(** Lines 264-278: resolve the handler of [route] and register it. *)
Definition register_handler (tmpModules : gmap string JsValue)
    (route : RouteMetadata) (handlersDir oId baseName : string) :
    M (gmap string JsValue) :=
  let modulePath := path_join handlersDir baseName in
  tmpModules ← load_module tmpModules modulePath oId;
  fn ← lift (get_member h (obj_member h tmpModules modulePath) oId);
  when (negb (to_boolean fn))
    (throw (Error (could_not_find oId modulePath)));;
  app_method (toLowerCase (method route)) (expressRoute route) fn;;
  mret tmpModules.

(** The body of the loop of [installOperationHandlers] for one route; the
    result is [tmpModules] after it.  Inside the last [if], [oId] and
    [baseName] are the strings read from the schema. *)
Definition install_route (tmpModules : gmap string JsValue)
    (route : RouteMetadata) : M (gmap string JsValue) :=
  let oId := operation_id (schema route) in
  let baseName := schema_get (schema route) "x-eov-operation-handler" in
  when (to_boolean oId && negb (to_boolean baseName))
    (throw (Error ("found x-eov-operation-id for route " +:+ method route
                   +:+ " - " +:+ expressRoute route
                   +:+ "]. x-eov-operation-handler required.")));;
  when (negb (to_boolean oId) && to_boolean baseName)
    (throw (Error ("found x-eov-operation-handler for route ["
                   +:+ method route +:+ " - " +:+ expressRoute route
                   +:+ "]. operationId or x-eov-operation-id required.")));;
  if to_boolean oId && to_boolean baseName
     && String.eqb (typeof (operationHandlers options)) "string" then
    match operationHandlers options, oId, baseName with
    | JStr handlersDir, JStr oId, JStr baseName =>
      register_handler tmpModules route handlersDir oId baseName
    | _, _, _ => mret tmpModules
    end
  else mret tmpModules.

(** The loop over the routes; the result is [tmpModules] at its end. *)
Fixpoint install_routes (tmpModules : gmap string JsValue)
    (rs : list RouteMetadata) : M (gmap string JsValue) :=
  match rs with
  | [] => mret tmpModules
  | route :: rest =>
    tmpModules ← install_route tmpModules route;
    install_routes tmpModules rest
  end.

Definition installOperationHandlers (context : OpenApiContext) : M unit :=
  install_routes ∅ (routes context);; mret tt.

(** [installMiddleware], after the context has been built. *)
Definition installMiddleware_in (context : OpenApiContext) : M unit :=
  installPathParams context;;
  installMetadataMiddleware context;;
  when (to_boolean (fileUploader options))
    (installMultipartMiddleware context);;
  let components := obj_get (apiDoc context) "components" in
  when (to_boolean (validateSecurity options)
        && to_boolean (opt_get components "securitySchemes"))
    (installSecurityMiddleware context);;
  when (to_boolean (validateRequests options))
    (installRequestValidationMiddleware context);;
  when (to_boolean (validateResponses options))
    (installResponseValidationMiddleware context);;
  when (to_boolean (operationHandlers options))
    (installOperationHandlers context).

Definition installMiddleware (spec : Spec) : M unit :=
  installMiddleware_in (new_OpenApiContext spec (ignorePaths options)).

End Installer.

(** ** Definitions used by the statements *)

(** [String.prototype.includes] *)
Fixpoint includes (t s : string) : bool :=
  String.prefix s t
  || match t with
     | EmptyString => false
     | String _ t' => includes t' s
     end.

(** The stage of the pipeline a registration belongs to, in the order of
    the calls in [installMiddleware]. *)
Definition stage (l : Layer) : nat :=
  match l with
  | app_param _ => 0
  | app_use (applyOpenApiMetadata _) => 1
  | app_use (multipart _ _) => 2
  | app_use (security _ _) => 3
  | app_use (RequestValidator _ _) => 4
  | app_use (ResponseValidator _ _) => 5
  | app_verb _ _ _ => 6
  end.

Definition stage_le (a b : Layer) : Prop := stage a ≤ stage b.

(** A schema entry counts as declared when it reads as a truthy value: an
    entry that is missing or the empty string does not. *)
Definition declares (s : gmap string string) (k : string) : bool :=
  to_boolean (schema_get s k).

Definition declares_operation_id (s : gmap string string) : bool :=
  declares s "x-eov-operation-id" || declares s "operationId".

Definition declares_handler (s : gmap string string) : bool :=
  declares s "x-eov-operation-handler".

(** One of the identifier and the handler reference without the other. *)
Definition mismatched (route : RouteMetadata) : bool :=
  (declares_operation_id (schema route)
   && negb (declares_handler (schema route)))
  || (negb (declares_operation_id (schema route))
      && declares_handler (schema route)).

Definition with_schema (s : gmap string string) (route : RouteMetadata) :
    RouteMetadata :=
  {| expressRoute := expressRoute route; method := method route;
     pathParams := pathParams route; schema := s |}.

(** The registrations made by [installMiddleware] before it reaches the
    operation handlers, in order. *)
Definition pipeline_layers (options : OpenApiValidatorOpts)
    (context : OpenApiContext) : list Layer :=
  (app_param <$>
     uniq (flat_map
             (λ route,
                if 0 <? length (pathParams route) then pathParams route
                else [])
             (routes context)))
  ++ [app_use (applyOpenApiMetadata context)]
  ++ (if to_boolean (fileUploader options)
      then [app_use (multipart context (fileUploader options))] else [])
  ++ (if to_boolean (validateSecurity options)
         && to_boolean (opt_get (obj_get (apiDoc context) "components")
                          "securitySchemes")
      then [app_use (security context
                       (opt_get (validateSecurity options) "handlers"))]
      else [])
  ++ (if to_boolean (validateRequests options)
      then [app_use (RequestValidator (apiDoc context)
                       (request_validator_options options
                          (opt_get (validateRequests options)
                             "allowUnknownQueryParameters")))]
      else [])
  ++ (if to_boolean (validateResponses options)
      then [app_use (ResponseValidator (apiDoc context)
                       (response_validator_options options
                          (opt_get (validateResponses options)
                             "removeAdditional")))]
      else []).


(** What one round of the loop of [installOperationHandlers] may do to the
    world, seen from [tmpModules] before it: it registers handlers only, it
    calls [require] only on paths that do not read as truthy in the memo,
    never twice on the same path, and when it returns no truthy entry has
    been lost and every path it loaded has for entry the module [require]
    gave or its default export, and not [undefined] or [null]. *)
Definition route_effect (h : Host) (require : string → Outcome JsValue)
    (tmp : gmap string JsValue) (w : World)
    (res : World * Outcome (gmap string JsValue)) : Prop :=
  ∃ hs more,
    layers res.1 = layers w ++ hs
    ∧ Forall (λ l, stage l = 6) hs
    ∧ required res.1 = required w ++ more
    ∧ NoDup more
    ∧ (∀ p, p ∈ more → to_boolean (obj_member h tmp p) = false)
    ∧ ∀ tmp', res.2 = Ret tmp' →
        (∀ p, to_boolean (obj_member h tmp p) = true →
              to_boolean (obj_member h tmp' p) = true)
        ∧ (∀ p, p ∈ more →
             is_nullish (obj_member h tmp' p) = false
             ∧ ∃ loaded,
                 require p = Ret loaded
                 ∧ (obj_member h tmp' p = loaded
                    ∨ get_member h loaded "default"
                      = Ret (obj_member h tmp' p))).

(** The namespace the loop keeps for a module it has just loaded (lines
    267-270): the module itself when its [oId] reads as truthy, else its
    default export. *)
Definition namespace_of (h : Host) (loaded : JsValue) (oId : string) :
    Outcome JsValue :=
  match get_member h loaded oId with
  | Throw e => Throw e
  | Ret found =>
    if to_boolean found then Ret loaded else get_member h loaded "default"
  end.

(** What the call [app[verb](path, fn)] of line 278 does to the world [w],
    for a round that goes on with the memo [tmp]. *)
Definition registration (h : Host) (verb path : string) (fn : JsValue)
    (w : World) (tmp : gmap string JsValue) :
    World * Outcome (gmap string JsValue) :=
  match handler_check h verb path fn with
  | Some e => (w, Throw e)
  | None => (add_layers w [app_verb verb path fn], Ret tmp)
  end.

(** The resolution worded per identifier, over what the module exports:
    the top-level export named [oId] if the module has one, and only
    otherwise the entry of that name under the default export. *)
Definition direct_then_default (exports : gmap string JsValue)
    (oId : string) : JsValue :=
  match exports !! oId with
  | Some fn => fn
  | None => opt_get (obj_get exports "default") oId
  end.

(** Every handler an installation registers for a route is the one
    [direct_then_default] finds in the route's handler module. *)
Definition registers_direct_then_default : Prop :=
  ∀ (h : Host) (require : string → Outcome JsValue)
    (path_join : string → string → string)
    (options : OpenApiValidatorOpts) (context : OpenApiContext)
    (w w' : World) (route : RouteMetadata) (dir oid base : string)
    (exports : gmap string JsValue) (fn : JsValue),
    installOperationHandlers h require path_join options context w
    = (w', Ret tt) →
    route ∈ routes context →
    operationHandlers options = JStr dir →
    operation_id (schema route) = JStr oid →
    schema_get (schema route) "x-eov-operation-handler" = JStr base →
    require (path_join dir base) = Ret (JObj exports) →
    app_verb (toLowerCase (method route)) (expressRoute route) fn
      ∈ layers w' →
    fn = direct_then_default exports oid.


(** ** Sample inputs *)

Module Sample.

Definition empty_world : World :=
  {| layers := []; required := []; warnings := [] |}.

(** Only [apiSpec] is given. *)
Definition options : OpenApiValidatorOpts :=
  {| apiSpec := JStr "api.yaml"; validateResponses := JUndefined;
     validateRequests := JUndefined; validateSecurity := JUndefined;
     securityHandlers := JUndefined; ignorePaths := JUndefined;
     coerceTypes := JUndefined; unknownFormats := JUndefined;
     fileUploader := JUndefined; multerOpts := JUndefined;
     refParser := JUndefined; operationHandlers := JUndefined;
     validateFormats := JUndefined |}.

(** [this.options] of a validator built from [{ apiSpec,
    operationHandlers: 'handlers' }]. *)
Definition handler_options : OpenApiValidatorOpts :=
  applyDefaults (normalizeOptions
    (set_operationHandlers (JStr "handlers") options)).

(** [{ apiSpec, securityHandlers: {}, validateSecurity: true }] *)
Definition conflicting_options : OpenApiValidatorOpts :=
  set_securityHandlers (JObj ∅)
    (set_validateSecurity (JBool true) options).

(** The members of [Object.prototype] and the members [Number.prototype]
    adds to them, each function under the name it has in the language
    specification. *)
Definition object_prototype : gmap string JsValue :=
  {[ "constructor" := JFun "Object";
     "hasOwnProperty" := JFun "Object.prototype.hasOwnProperty";
     "isPrototypeOf" := JFun "Object.prototype.isPrototypeOf";
     "propertyIsEnumerable" := JFun "Object.prototype.propertyIsEnumerable";
     "toLocaleString" := JFun "Object.prototype.toLocaleString";
     "toString" := JFun "Object.prototype.toString";
     "valueOf" := JFun "Object.prototype.valueOf";
     "__defineGetter__" := JFun "Object.prototype.__defineGetter__";
     "__defineSetter__" := JFun "Object.prototype.__defineSetter__";
     "__lookupGetter__" := JFun "Object.prototype.__lookupGetter__";
     "__lookupSetter__" := JFun "Object.prototype.__lookupSetter__" ]}.

Definition number_prototype : gmap string JsValue :=
  {[ "constructor" := JFun "Number";
     "toExponential" := JFun "Number.prototype.toExponential";
     "toFixed" := JFun "Number.prototype.toFixed";
     "toLocaleString" := JFun "Number.prototype.toLocaleString";
     "toPrecision" := JFun "Number.prototype.toPrecision";
     "toString" := JFun "Number.prototype.toString";
     "valueOf" := JFun "Number.prototype.valueOf" ]}.

(** What a plain object inherits. *)
Definition object_member (k : string) : JsValue :=
  if String.eqb k "__proto__" then JObj object_prototype
  else obj_get object_prototype k.

(** The properties of a number.  Those that strings, booleans, arrays
    and functions have beyond the members of [Object.prototype] are left
    out: no example reads one. *)
Definition member_of (v : JsValue) (k : string) : JsValue :=
  match v with
  | JNum _ =>
    if String.eqb k "__proto__" then JObj number_prototype
    else default (object_member k) (number_prototype !! k)
  | _ => object_member k
  end.

(** The class name [Object.prototype.toString] gives a value. *)
Definition class_of (v : JsValue) : string :=
  match v with
  | JUndefined => "Undefined"
  | JNull => "Null"
  | JBool _ => "Boolean"
  | JNum _ => "Number"
  | JStr _ => "String"
  | JFun _ => "Function"
  | JArr _ => "Array"
  | JObj _ => "Object"
  end.

(** Express 4 flattens the handlers it is given and refuses the first
    that is not a function. *)
Fixpoint first_refused (fn : JsValue) : option JsValue :=
  match fn with
  | JFun _ => None
  | JArr items =>
    (fix go (l : list JsValue) : option JsValue :=
       match l with
       | [] => None
       | x :: rest =>
         match first_refused x with
         | Some v => Some v
         | None => go rest
         end
       end) items
  | v => Some v
  end.

(** The check of Express 4's [Route.prototype[verb]], for a verb the
    application has. *)
Definition express_check (verb path : string) (fn : JsValue) :
    option Exn :=
  match first_refused fn with
  | None => None
  | Some v =>
    Some (Error ("Route." +:+ verb
                 +:+ "() requires a callback function but got a [object "
                 +:+ class_of v +:+ "]"))
  end.

(** V8's wording of a read from [undefined] or [null] up to Node 14 (the
    type declarations in package.json are those of Node 13), and its
    wording since Node 16. *)
Definition cannot_read_property (k : string) (v : JsValue) : string :=
  "Cannot read property '" +:+ k +:+ "' of "
  +:+ (if v is JNull then "null" else "undefined").

Definition cannot_read_properties (k : string) (v : JsValue) : string :=
  "Cannot read properties of "
  +:+ (if v is JNull then "null" else "undefined")
  +:+ " (reading '" +:+ k +:+ "')".

Definition host : Host :=
  {| inherited := object_member; builtin_member := member_of;
     read_error := cannot_read_property; handler_check := express_check;
     inherited_proto := eq_refl |}.

Definition later_host : Host :=
  {| inherited := object_member; builtin_member := member_of;
     read_error := cannot_read_properties; handler_check := express_check;
     inherited_proto := eq_refl |}.

(** [path.join] on a directory and a base name that need no
    normalisation. *)
Definition join (dir base : string) : string := dir +:+ "/" +:+ base.

(** Two handler modules: [handlers/ping] exports [ping] at its top level
    and has no default export; [handlers/users] exports [b] at its top
    level and [a] and [b] under its default export. *)
Definition modules (modulePath : string) : Outcome JsValue :=
  if String.eqb modulePath "handlers/ping" then
    Ret (JObj {[ "ping" := JFun "ping" ]})
  else if String.eqb modulePath "handlers/users" then
    Ret (JObj {[ "b" := JFun "top_b";
                 "default" := JObj {[ "a" := JFun "default_a";
                                      "b" := JFun "default_b" ]} ]})
  else Throw (Error ("Cannot find module '" +:+ modulePath +:+ "'")).

(** A handler module that is a number: [handlers/zero] is
    [module.exports = 0]. *)
Definition number_module (modulePath : string) : Outcome JsValue :=
  if String.eqb modulePath "handlers/zero" then Ret (JNum 0)
  else Throw (Error ("Cannot find module '" +:+ modulePath +:+ "'")).

Definition route (path verb : string) (s : gmap string string) :
    RouteMetadata :=
  {| expressRoute := path; method := verb; pathParams := []; schema := s |}.

Definition ping : RouteMetadata :=
  route "/ping" "GET"
    {[ "operationId" := "ping"; "x-eov-operation-handler" := "ping" ]}.

(** [pong] is not exported by [handlers/ping]. *)
Definition pong : RouteMetadata :=
  route "/pong" "GET"
    {[ "operationId" := "pong"; "x-eov-operation-handler" := "ping" ]}.

Definition users_a : RouteMetadata :=
  route "/a" "GET"
    {[ "operationId" := "a"; "x-eov-operation-handler" := "users" ]}.

Definition users_b : RouteMetadata :=
  route "/b" "GET"
    {[ "operationId" := "b"; "x-eov-operation-handler" := "users" ]}.

(** Two operations of [handlers/zero] whose identifier names a method
    every number has. *)
Definition zero_a : RouteMetadata :=
  route "/a" "GET"
    {[ "operationId" := "toFixed"; "x-eov-operation-handler" := "zero" ]}.

Definition zero_b : RouteMetadata :=
  route "/b" "GET"
    {[ "operationId" := "toFixed"; "x-eov-operation-handler" := "zero" ]}.

(** An operation with an identifier and no handler reference. *)
Definition unpaired : RouteMetadata :=
  route "/health" "GET" {[ "operationId" := "health" ]}.

(** Both identifiers are declared. *)
Definition both_ids : RouteMetadata :=
  route "/ping" "GET"
    {[ "x-eov-operation-id" := "ping"; "operationId" := "getPing";
       "x-eov-operation-handler" := "ping" ]}.

(** A document without [components]. *)
Definition context (rs : list RouteMetadata) : OpenApiContext :=
  {| apiDoc := ∅; routes := rs |}.

(** The parsed document is the list of its routes. *)
Definition new_context (rs : list RouteMetadata) (ignorePaths : JsValue) :
    OpenApiContext :=
  context rs.

End Sample.

(** The module path a route's handler reference stands for, when the
    [operationHandlers] option is a directory. *)
Definition module_path_of (path_join : string → string → string)
    (options : OpenApiValidatorOpts) (route : RouteMetadata) :
    option string :=
  match operationHandlers options,
        schema_get (schema route) "x-eov-operation-handler" with
  | JStr dir, JStr base => Some (path_join dir base)
  | _, _ => None
  end.

(** ** Further definitions: the rest of the file *)

(** [if (v == null) d else v], the value a defaulting line leaves. *)
Definition defaulted (d v : JsValue) : JsValue :=
  if is_nullish v then d else v.

(** [if (v === true) lit else v], the value an expanding line leaves. *)
Definition expanded (lit v : JsValue) : JsValue :=
  if is_true v then lit else v.

(** What [validateOptions] asks of a legacy option: [null], [undefined] or
    an object that is not an array. *)
Definition legacy_option_ok (v : JsValue) : bool :=
  is_nullish v || (String.eqb (typeof v) "object" && negb (isArray v)).

(** What [validateOptions] asks of [unknownFormats]: not [false] and not a
    string other than ['ignore']. *)
Definition unknownFormats_ok (v : JsValue) : bool :=
  match v with
  | JBool b => b
  | JStr s => String.eqb s "ignore"
  | _ => true
  end.

(** All the checks of [validateOptions] pass. *)
Definition options_accepted (o : OpenApiValidatorOpts) : bool :=
  to_boolean (apiSpec o)
  && legacy_option_ok (securityHandlers o)
  && negb (to_boolean (securityHandlers o) && to_boolean (validateSecurity o))
  && legacy_option_ok (multerOpts o)
  && negb (to_boolean (multerOpts o) && to_boolean (fileUploader o))
  && unknownFormats_ok (unknownFormats o).

(** The deprecation warnings of a call of [validateOptions] that passes. *)
Definition legacy_warnings (o : OpenApiValidatorOpts) : list string :=
  (if is_nullish (securityHandlers o) then []
   else ["securityHandlers is deprecated. Use validateSecurities.handlers instead."])
  ++ (if is_nullish (multerOpts o) then []
      else ["multerOpts is deprecated. Use fileUploader instead."]).

Definition add_warnings (w : World) (msgs : list string) : World :=
  {| layers := layers w; required := required w;
     warnings := warnings w ++ msgs |}.

(** The callback given to [app.param] (lines 141-155): [openapi] is
    [req.openapi], [params] is [req.params], a plain object, and the result
    is [req.params] when [next] is called.  The assignment adds or changes
    an own property of [req.params], as it does for every [name] but
    [__proto__]. *)
Definition path_param_override (h : Host) (openapi : JsValue)
    (params : gmap string JsValue) (name : string) :
    Outcome (gmap string JsValue) :=
  if to_boolean (opt_get openapi "pathParams") then
    match get_member h (opt_get openapi "pathParams") name with
    | Ret value =>
      Ret (<[name := js_or value (obj_member h params name)]> params)
    | Throw e => Throw e
    end
  else Ret params.

(** The number of registrations of a stage. *)
Definition count_stage (k : nat) (ls : list Layer) : nat :=
  length (List.filter (λ l, stage l =? k) ls).

Definition b2n (b : bool) : nat := if b then 1 else 0.

(** A route whose handler the loop resolves: it has an identifier and a
    handler reference, and [operationHandlers] is a string. *)
Definition handled (options : OpenApiValidatorOpts) (route : RouteMetadata) :
    bool :=
  declares_operation_id (schema route) && declares_handler (schema route)
  && String.eqb (typeof (operationHandlers options)) "string".

(** The verb and path a handler is registered under. *)
Definition route_key (route : RouteMetadata) : string * string :=
  (toLowerCase (method route), expressRoute route).

Definition layer_key (l : Layer) : option (string * string) :=
  match l with
  | app_verb verb path _ => Some (verb, path)
  | _ => None
  end.

(** ** [installSync] and [install] *)

Section Install.

Variable Spec : Type.
Variable new_OpenApiContext : Spec → JsValue → OpenApiContext.
Variable h : Host.
Variable require : string → Outcome JsValue.
Variable path_join : string → string → string.
Variable options : OpenApiValidatorOpts.

(** [new OpenApiSpecLoader({ apiDoc }).loadSync()], which returns the
    document or throws, and what the promise of
    [new OpenApiSpecLoader({ apiDoc, $refParser }).load()] settles to. *)
Variable loadSync : JsValue → Outcome Spec.
Variable load : JsValue → JsValue → Outcome Spec.

Definition installSync : M unit :=
  spec ← lift (loadSync (apiSpec options));
  installMiddleware Spec new_OpenApiContext h require path_join options spec.

(** The promise [p] of [install], by what it settles to: the world is the
    one after the chain has run. *)
Definition install_promise : M unit :=
  spec ← lift (load (apiSpec options) (refParser options));
  installMiddleware Spec new_OpenApiContext h require path_join options spec.

(** What [install] hands back: the promise, or nothing, in which case the
    errors the callback was called with are listed. *)
Inductive InstallReturn : Type :=
  | returns_promise (settled : Outcome unit)
  | returns_undefined (callback_calls : list Exn).

Definition install (callback : JsValue) (w : World) : World * InstallReturn :=
  let (w', p) := install_promise w in
  let useCallback :=
    to_boolean callback && String.eqb (typeof callback) "function" in
  if useCallback then
    (w', returns_undefined
           match p with
           | Throw e => [e]
           | Ret _ => []
           end)
  else (w', returns_promise p).

End Install.

(** The options are as the constructor leaves them: every defaulted option
    is set, none of the three switches is the bare [true], and the legacy
    options are gone. *)
Definition options_normalized (o : OpenApiValidatorOpts) : bool :=
  negb (is_nullish (coerceTypes o))
  && negb (is_nullish (validateRequests o))
  && negb (is_nullish (validateResponses o))
  && negb (is_nullish (validateSecurity o))
  && negb (is_nullish (fileUploader o))
  && negb (is_nullish (refParser o))
  && negb (is_nullish (operationHandlers o))
  && negb (is_nullish (validateFormats o))
  && negb (is_true (validateRequests o))
  && negb (is_true (validateResponses o))
  && negb (is_true (validateSecurity o))
  && is_nullish (securityHandlers o)
  && is_nullish (multerOpts o).

(** A registration is built from the context and the options of this
    installation. *)
Definition built_from (options : OpenApiValidatorOpts)
    (context : OpenApiContext) (l : Layer) : Prop :=
  match l with
  | app_param name =>
    ∃ route, route ∈ routes context ∧ name ∈ pathParams route
  | app_use (applyOpenApiMetadata c) => c = context
  | app_use (multipart c uploader) =>
    c = context ∧ uploader = fileUploader options
  | app_use (security c handlers) =>
    c = context
    ∧ handlers = opt_get (validateSecurity options) "handlers"
  | app_use (RequestValidator doc ropts) =>
    doc = apiDoc context
    ∧ ropts = request_validator_options options
                (opt_get (validateRequests options)
                   "allowUnknownQueryParameters")
  | app_use (ResponseValidator doc ropts) =>
    doc = apiDoc context
    ∧ ropts = response_validator_options options
                (opt_get (validateResponses options) "removeAdditional")
  | app_verb verb path handler =>
    to_boolean handler = true
    ∧ ∃ route, route ∈ routes context ∧ (verb, path) = route_key route
  end.

(** ** More sample inputs *)

Module Cases.

(** The options a validator keeps for the options [o] given. *)
Definition kept (o : OpenApiValidatorOpts) : OpenApiValidatorOpts :=
  applyDefaults (normalizeOptions o).

(** No [apiSpec], and a legacy option. *)
Definition without_spec : OpenApiValidatorOpts :=
  {| apiSpec := JUndefined; validateResponses := JUndefined;
     validateRequests := JUndefined; validateSecurity := JUndefined;
     securityHandlers := JObj {[ "ApiKey" := JFun "checkKey" ]};
     ignorePaths := JUndefined; coerceTypes := JUndefined;
     unknownFormats := JUndefined; fileUploader := JUndefined;
     multerOpts := JUndefined; refParser := JUndefined;
     operationHandlers := JUndefined; validateFormats := JUndefined |}.

(** [{ apiSpec, securityHandlers: { ApiKey }, multerOpts: { dest } }] *)
Definition legacy : OpenApiValidatorOpts :=
  set_multerOpts (JObj {[ "dest" := JStr "uploads" ]})
    (set_securityHandlers (JObj {[ "ApiKey" := JFun "checkKey" ]})
       Sample.options).

(** [{ apiSpec, validateResponses: true, coerceTypes: false }] *)
Definition validated_responses : OpenApiValidatorOpts :=
  set_coerceTypes (JBool false)
    (set_validateResponses (JBool true) Sample.options).

(** [operationHandlers] is [true], not a directory. *)
Definition handlers_flag : OpenApiValidatorOpts :=
  kept (set_operationHandlers (JBool true) Sample.options).

(** A document that declares a security scheme. *)
Definition secured_context (rs : list RouteMetadata) (ignorePaths : JsValue) :
    OpenApiContext :=
  {| apiDoc :=
       {[ "components" :=
            JObj {[ "securitySchemes" := JObj {[ "ApiKey" := JObj ∅ ]} ]} ]};
     routes := rs |}.

(** The handler module of this route does not exist. *)
Definition orphan : RouteMetadata :=
  Sample.route "/orphan" "GET"
    {[ "operationId" := "orphan"; "x-eov-operation-handler" := "missing" ]}.

(** [handlers/users] has no [c], at its top level or under its default
    export. *)
Definition users_c : RouteMetadata :=
  Sample.route "/c" "GET"
    {[ "operationId" := "c"; "x-eov-operation-handler" := "users" ]}.

End Cases.

(** ** The monad, run *)

Lemma run_bind {A B : Type} (m : M A) (f : A → M B) (w : World) :
  (m ≫= f) w =
  match m w with
  | (w', Ret a) => f a w'
  | (w', Throw e) => (w', Throw e)
  end.
Proof. reflexivity. Qed.

Lemma run_ret {A : Type} (a : A) (w : World) :
  (mret a : M A) w = (w, Ret a).
Proof. reflexivity. Qed.

Lemma add_layers_nil (w : World) : add_layers w [] = w.
Proof. destruct w. unfold add_layers. simpl. by rewrite app_nil_r. Qed.

Lemma add_layers_app (w : World) (l1 l2 : list Layer) :
  add_layers (add_layers w l1) l2 = add_layers w (l1 ++ l2).
Proof. unfold add_layers. simpl. by rewrite app_assoc. Qed.

(** ** The constructor *)

Lemma unknownFormats_default_to get set v o :
  (∀ v' o', unknownFormats (set v' o') = unknownFormats o') →
  unknownFormats (default_to get set v o) = unknownFormats o.
Proof. intros Hset. unfold default_to. by destruct (is_nullish (get o)). Qed.

Lemma unknownFormats_applyDefaults o :
  unknownFormats (applyDefaults o) = unknownFormats o.
Proof.
  unfold applyDefaults.
  repeat match goal with
         | |- context [if ?c then _ else _] => destruct c
         end;
    repeat (simpl; rewrite ?unknownFormats_default_to); done.
Qed.

Lemma unknownFormats_normalizeOptions o :
  unknownFormats (normalizeOptions o) = unknownFormats o.
Proof.
  unfold normalizeOptions.
  repeat match goal with
         | |- context [if ?c then _ else _] => destruct c
         end; done.
Qed.

(** Whenever the constructor returns, it returns the normalised and
    defaulted options. *)
Lemma constructor_returns o w w' o' :
  constructor o w = (w', Ret o') →
  o' = applyDefaults (normalizeOptions o).
Proof.
  unfold constructor. rewrite run_bind.
  destruct (validateOptions o w) as [w1 [[]|e]]; [|done].
  rewrite run_ret. by intros [= _ <-].
Qed.

(** C1: when [unknownFormats] is [null] or [undefined], the constructor
    leaves it so: line 37 compares instead of assigning, and the options
    the validator keeps still have no [unknownFormats]. *)
Theorem unknownFormats_default_not_applied o w w' o' :
  is_nullish (unknownFormats o) = true →
  constructor o w = (w', Ret o') →
  unknownFormats o' = unknownFormats o
  ∧ is_nullish (unknownFormats o') = true
  ∧ unknownFormats o' ≠ JBool true.
Proof.
  intros Hnull Hrun. apply constructor_returns in Hrun as ->.
  rewrite unknownFormats_applyDefaults, unknownFormats_normalizeOptions.
  split; [done|]. split; [done|].
  intros Heq. by rewrite Heq in Hnull.
Qed.

(** C8: options that name both [securityHandlers] and [validateSecurity],
    or both [multerOpts] and [fileUploader], make the constructor throw. *)
Theorem conflicting_options_throw o w :
  (to_boolean (securityHandlers o) && to_boolean (validateSecurity o))
  || (to_boolean (multerOpts o) && to_boolean (fileUploader o)) = true →
  ∃ w' e, constructor o w = (w', Throw e).
Proof.
  intros Hconflict.
  unfold constructor, validateOptions, when, throw, deprecationWarning.
  unfold mbind, M_bind, mret, M_ret.
  destruct (to_boolean (securityHandlers o)), (to_boolean (validateSecurity o)),
    (to_boolean (multerOpts o)), (to_boolean (fileUploader o));
    try discriminate Hconflict; simpl;
    repeat match goal with
           | |- context [if ?c then _ else _] => destruct c; simpl
           end; eauto.
Qed.

(** ** The installer *)

Lemma get_prop_truthy h v k :
  to_boolean v = true → get_prop h v k = Ret (opt_get v k).
Proof. by destruct v. Qed.

Lemma for_of_register {A : Type} (f : A → Layer) (l : list A) (w : World) :
  for_of l (λ x, register (f x)) w = (add_layers w (f <$> l), Ret tt).
Proof.
  revert w. induction l as [|x l IH]; intros w; simpl.
  - by rewrite run_ret, add_layers_nil.
  - rewrite run_bind. unfold register at 1.
    by rewrite IH, add_layers_app.
Qed.

Section InstallerFacts.

Variable h : Host.
Variable require : string → Outcome JsValue.
Variable path_join : string → string → string.
Variable options : OpenApiValidatorOpts.

Lemma installMiddleware_in_run ctx w :
  installMiddleware_in h require path_join options ctx w =
  when (to_boolean (operationHandlers options))
    (installOperationHandlers h require path_join options ctx)
    (add_layers w (pipeline_layers options ctx)).
Proof.
  unfold installMiddleware_in, pipeline_layers.
  rewrite run_bind. unfold installPathParams.
  rewrite for_of_register.
  rewrite run_bind. unfold installMetadataMiddleware, register at 1.
  rewrite add_layers_app.
  rewrite run_bind.
  unfold installMultipartMiddleware, installSecurityMiddleware,
    installRequestValidationMiddleware,
    installResponseValidationMiddleware.
  destruct (to_boolean (fileUploader options)); unfold when at 1;
    [unfold register at 1|rewrite run_ret];
    rewrite ?add_layers_app, run_bind;
    (destruct (to_boolean (validateSecurity options)
               && to_boolean (opt_get (obj_get (apiDoc ctx) "components")
                                "securitySchemes")); unfold when at 1;
     [unfold register at 1|rewrite run_ret]);
    rewrite ?add_layers_app, run_bind;
    (destruct (to_boolean (validateRequests options)) eqn:Hreq;
     unfold when at 1;
     [rewrite run_bind, (get_prop_truthy _ _ _ Hreq); unfold lift;
      unfold register at 1|rewrite run_ret]);
    rewrite ?add_layers_app, run_bind;
    (destruct (to_boolean (validateResponses options)) eqn:Hresp;
     unfold when at 1;
     [rewrite run_bind, (get_prop_truthy _ _ _ Hresp); unfold lift;
      unfold register at 1|rewrite run_ret]);
    rewrite ?add_layers_app, <- ?app_assoc, ?app_nil_r; reflexivity.
Qed.

End InstallerFacts.

(** ** Operation handlers *)

Lemma obj_member_insert_eq h (m : gmap string JsValue) k v :
  obj_member h (<[k := v]> m) k = v.
Proof. unfold obj_member. by rewrite lookup_insert_eq. Qed.

Lemma obj_member_insert_ne h (m : gmap string JsValue) k k' v :
  k ≠ k' → obj_member h (<[k := v]> m) k' = obj_member h m k'.
Proof. intros Hne. unfold obj_member. by rewrite lookup_insert_ne. Qed.

(** A read that returns was not a read from [undefined] or [null]. *)
Lemma get_member_ret_inv h v k x :
  get_member h v k = Ret x → is_nullish v = false.
Proof. by destruct v. Qed.


(** The namespace kept for a module is the module or its default export. *)
Lemma namespace_of_cases h loaded oid namespace :
  namespace_of h loaded oid = Ret namespace →
  namespace = loaded ∨ get_member h loaded "default" = Ret namespace.
Proof.
  unfold namespace_of.
  destruct (get_member h loaded oid) as [found|e]; [|done].
  destruct (to_boolean found); [intros [= <-]; by left|by right].
Qed.

Lemma schema_get_cases (s : gmap string string) k :
  schema_get s k = JUndefined ∨ ∃ v, schema_get s k = JStr v.
Proof. unfold schema_get. destruct (s !! k); simpl; eauto. Qed.

Lemma registration_cases h verb path fn w tmp :
  (∃ e, registration h verb path fn w tmp = (w, Throw e))
  ∨ registration h verb path fn w tmp
    = (add_layers w [app_verb verb path fn], Ret tmp).
Proof. unfold registration. destruct (handler_check _ _ _ _); eauto. Qed.

Section HandlerFacts.

Variable h : Host.
Variable require : string → Outcome JsValue.
Variable path_join : string → string → string.
Variable options : OpenApiValidatorOpts.

(** [load_module], case by case. *)
Lemma load_module_run tmp mp oid w :
  load_module h require tmp mp oid w =
  if to_boolean (obj_member h tmp mp) then (w, Ret tmp)
  else
    match require mp with
    | Throw e => (add_required w mp, Throw e)
    | Ret loaded =>
      match namespace_of h loaded oid with
      | Throw e => (add_required w mp, Throw e)
      | Ret namespace => (add_required w mp, Ret (<[mp := namespace]> tmp))
      end
    end.
Proof.
  unfold load_module, namespace_of.
  destruct (to_boolean (obj_member h tmp mp)); [done|].
  cbn [negb]. rewrite run_bind. unfold call_require.
  destruct (require mp) as [loaded|e]; [|done].
  rewrite run_bind, obj_member_insert_eq. unfold lift.
  destruct (get_member h loaded oid) as [found|e]; [|done].
  destruct (to_boolean found); [done|].
  cbn [negb]. rewrite run_bind.
  destruct (get_member h loaded "default"); [|done].
  by rewrite run_ret, insert_insert_eq.
Qed.

(** The memo of an installation has no own [__proto__]: that name reads as
    truthy in it, so [load_module] never assigns to it. *)
Lemma load_module_keeps_proto tmp mp oid w w' tmp' :
  tmp !! "__proto__" = None →
  load_module h require tmp mp oid w = (w', Ret tmp') →
  tmp' !! "__proto__" = None.
Proof.
  intros Hnone. rewrite load_module_run.
  destruct (to_boolean (obj_member h tmp mp)) eqn:Hmemo; [by intros [= _ <-]|].
  assert (Hne : mp ≠ "__proto__").
  { intros ->. unfold obj_member in Hmemo. rewrite Hnone in Hmemo.
    cbn [default] in Hmemo. by rewrite inherited_proto in Hmemo. }
  destruct (require mp) as [loaded|e]; [|done].
  destruct (namespace_of h loaded oid) as [namespace|e]; [|done].
  intros [= _ <-]. by rewrite lookup_insert_ne.
Qed.

(** [register_handler], case by case. *)
Lemma register_handler_run tmp route dir oid base w :
  register_handler h require path_join tmp route dir oid base w =
  match load_module h require tmp (path_join dir base) oid w with
  | (w1, Throw e) => (w1, Throw e)
  | (w1, Ret tmp1) =>
    match get_member h (obj_member h tmp1 (path_join dir base)) oid with
    | Throw e => (w1, Throw e)
    | Ret fn =>
      if to_boolean fn
      then registration h (toLowerCase (method route)) (expressRoute route)
             fn w1 tmp1
      else (w1, Throw (Error (could_not_find oid (path_join dir base))))
    end
  end.
Proof.
  unfold register_handler. rewrite run_bind.
  destruct (load_module _ _ _ _ _ _) as [w1 [tmp1|e]]; [|done].
  rewrite run_bind. unfold lift.
  destruct (get_member _ _ _) as [fn|e]; [|done].
  rewrite run_bind. destruct (to_boolean fn); [|done].
  cbn [negb when]. rewrite run_ret, run_bind.
  unfold app_method, registration.
  by destruct (handler_check _ _ _ _).
Qed.

(** A route whose module path reads as truthy in the memo: nothing is
    loaded, and the handler is read from the memo entry. *)
Lemma register_handler_memoized tmp route dir oid base w :
  to_boolean (obj_member h tmp (path_join dir base)) = true →
  register_handler h require path_join tmp route dir oid base w =
  match get_member h (obj_member h tmp (path_join dir base)) oid with
  | Throw e => (w, Throw e)
  | Ret fn =>
    if to_boolean fn
    then registration h (toLowerCase (method route)) (expressRoute route)
           fn w tmp
    else (w, Throw (Error (could_not_find oid (path_join dir base))))
  end.
Proof.
  intros Hmemo. by rewrite register_handler_run, load_module_run, Hmemo.
Qed.

(** A route whose module path does not: the module is loaded, and the
    handler is read from the namespace kept for it. *)
Lemma register_handler_fresh tmp route dir oid base w :
  to_boolean (obj_member h tmp (path_join dir base)) = false →
  register_handler h require path_join tmp route dir oid base w =
  match require (path_join dir base) with
  | Throw e => (add_required w (path_join dir base), Throw e)
  | Ret loaded =>
    match namespace_of h loaded oid with
    | Throw e => (add_required w (path_join dir base), Throw e)
    | Ret namespace =>
      match get_member h namespace oid with
      | Throw e => (add_required w (path_join dir base), Throw e)
      | Ret fn =>
        if to_boolean fn
        then registration h (toLowerCase (method route))
               (expressRoute route) fn
               (add_required w (path_join dir base))
               (<[path_join dir base := namespace]> tmp)
        else (add_required w (path_join dir base),
              Throw (Error (could_not_find oid (path_join dir base))))
      end
    end
  end.
Proof.
  intros Hmemo. rewrite register_handler_run, load_module_run, Hmemo.
  destruct (require _) as [loaded|e]; [|done].
  destruct (namespace_of h loaded oid) as [namespace|e]; [|done].
  by rewrite obj_member_insert_eq.
Qed.

(** The three ways the loop body can go: it throws before touching
    anything, it skips the route, or it resolves and registers the
    handler named by the schema. *)
Lemma install_route_cases tmp route w :
  (mismatched route = true
   ∧ ∃ e, install_route h require path_join options tmp route w
          = (w, Throw e))
  ∨ (mismatched route = false
     ∧ install_route h require path_join options tmp route w = (w, Ret tmp))
  ∨ (mismatched route = false
     ∧ ∃ dir oid base,
         operationHandlers options = JStr dir
         ∧ operation_id (schema route) = JStr oid
         ∧ schema_get (schema route) "x-eov-operation-handler" = JStr base
         ∧ install_route h require path_join options tmp route w
           = register_handler h require path_join tmp route dir oid base w).
Proof.
  unfold install_route, mismatched, declares_operation_id,
    declares_handler, declares, operation_id, js_or.
  destruct (schema_get_cases (schema route) "x-eov-operation-id")
    as [-> | [xid ->]];
    destruct (schema_get_cases (schema route) "operationId")
      as [-> | [opid ->]];
    destruct (schema_get_cases (schema route) "x-eov-operation-handler")
      as [-> | [base ->]];
    try destruct (String.eqb xid "") eqn:Exid;
    try destruct (String.eqb opid "") eqn:Eopid;
    try destruct (String.eqb base "") eqn:Ebase;
    repeat (progress (cbn [to_boolean negb andb orb when];
                      rewrite ?Exid, ?Eopid, ?Ebase));
    rewrite ?run_bind, ?run_ret;
    try (left; split; [done|]; unfold throw; eauto; fail);
    try (right; left; split; [done|]; done);
    destruct (operationHandlers options) as [| |?|?|dir|?|?|?];
    cbn [typeof String.eqb Ascii.eqb Bool.eqb];
    try (right; left; split; [done|]; done);
    try (right; right; split; [done|]; eauto 10; fail).
Qed.

(** A route with an identifier and a handler reference, under a string
    [operationHandlers], goes to [register_handler]. *)
Lemma install_route_paired tmp route dir oid base w :
  operationHandlers options = JStr dir →
  operation_id (schema route) = JStr oid → oid ≠ "" →
  schema_get (schema route) "x-eov-operation-handler" = JStr base →
  base ≠ "" →
  install_route h require path_join options tmp route w
  = register_handler h require path_join tmp route dir oid base w.
Proof.
  intros Hdir Hoid Hne Hbase Hbne. unfold install_route.
  rewrite Hoid, Hbase, Hdir. cbn [to_boolean typeof].
  apply String.eqb_neq in Hne, Hbne. rewrite Hne, Hbne.
  cbn [negb andb when]. by rewrite !run_bind, !run_ret.
Qed.

Lemma route_effect_skip tmp w o :
  (∀ tmp', o = Ret tmp' → tmp' = tmp) → route_effect h require tmp w (w, o).
Proof.
  intros Ho. exists [], []. simpl. rewrite !app_nil_r.
  split_and!; [done|done|done|constructor| |].
  - intros p Hp. by apply not_elem_of_nil in Hp.
  - intros tmp' ->%Ho. split; [done|].
    intros p Hp. by apply not_elem_of_nil in Hp.
Qed.

Lemma route_effect_registration tmp w verb path fn :
  route_effect h require tmp w (registration h verb path fn w tmp).
Proof.
  destruct (registration_cases h verb path fn w tmp) as [[e ->] | ->].
  - by apply route_effect_skip.
  - exists [app_verb verb path fn], []. simpl. rewrite app_nil_r.
    split_and!; [done|by repeat constructor|done|constructor| |].
    + intros p Hp. by apply not_elem_of_nil in Hp.
    + intros tmp' [= <-]. split; [done|].
      intros p Hp. by apply not_elem_of_nil in Hp.
Qed.

Lemma register_handler_effect tmp route dir oid base w :
  route_effect h require tmp w
    (register_handler h require path_join tmp route dir oid base w).
Proof.
  set (mp := path_join dir base).
  destruct (to_boolean (obj_member h tmp mp)) eqn:Hmemo.
  - (* the path reads as truthy *)
    rewrite (register_handler_memoized _ _ _ _ _ _ Hmemo). fold mp.
    destruct (get_member h (obj_member h tmp mp) oid) as [fn|e];
      [destruct (to_boolean fn)|]; try (by apply route_effect_skip).
    apply route_effect_registration.
  - (* the module is loaded *)
    rewrite (register_handler_fresh _ _ _ _ _ _ Hmemo). fold mp.
    assert (Hload : ∀ o hs,
      Forall (λ l, stage l = 6) hs →
      (∀ tmp', o = Ret tmp' →
         (is_nullish (obj_member h tmp' mp) = false
          ∧ ∃ loaded,
              require mp = Ret loaded
              ∧ (obj_member h tmp' mp = loaded
                 ∨ get_member h loaded "default"
                   = Ret (obj_member h tmp' mp)))
         ∧ ∀ p, p ≠ mp → obj_member h tmp' p = obj_member h tmp p) →
      route_effect h require tmp w (add_layers (add_required w mp) hs, o)).
    { intros o hs Hhs Ho. exists hs, [mp]. simpl.
      split_and!; [done|done|done|apply NoDup_singleton| |].
      - by intros p ->%list_elem_of_singleton.
      - intros tmp' [Hmp Hother]%Ho. split.
        + intros p Hp. rewrite Hother; [done|]. intros ->. congruence.
        + by intros p ->%list_elem_of_singleton. }
    assert (Hthrow : ∀ e,
      route_effect h require tmp w
        (add_required w mp, @Throw (gmap string JsValue) e)).
    { intros e. rewrite <- (add_layers_nil (add_required w mp)).
      apply Hload; [constructor|done]. }
    destruct (require mp) as [loaded|e] eqn:Hreq; [|apply Hthrow].
    destruct (namespace_of h loaded oid) as [namespace|e] eqn:Hns;
      [|apply Hthrow].
    destruct (get_member h namespace oid) as [fn|e] eqn:Hfn; [|apply Hthrow].
    destruct (to_boolean fn); [|apply Hthrow].
    destruct (registration_cases h (toLowerCase (method route))
                (expressRoute route) fn (add_required w mp)
                (<[mp := namespace]> tmp)) as [[e ->] | ->];
      [apply Hthrow|].
    apply Hload; [by repeat constructor|].
    intros tmp' [= <-]. rewrite obj_member_insert_eq. split.
    + split; [by eapply get_member_ret_inv|].
      exists loaded. split; [done|]. by eapply namespace_of_cases.
    + intros p Hp. by rewrite obj_member_insert_ne.
Qed.

Lemma install_route_effect tmp route w :
  route_effect h require tmp w
    (install_route h require path_join options tmp route w).
Proof.
  destruct (install_route_cases tmp route w)
    as [[_ [e ->]] | [[_ ->] | [_ (dir & oid & base & _ & _ & _ & ->)]]].
  - by apply route_effect_skip.
  - apply route_effect_skip. by intros tmp' [= <-].
  - apply register_handler_effect.
Qed.

(** The loop registers handlers only. *)
Lemma install_routes_layers rs : ∀ tmp w,
  ∃ hs,
    layers (install_routes h require path_join options tmp rs w).1
    = layers w ++ hs
    ∧ Forall (λ l, stage l = 6) hs.
Proof.
  induction rs as [|route rest IH]; intros tmp w.
  - exists []. simpl. by rewrite app_nil_r.
  - cbn [install_routes]. rewrite run_bind.
    destruct (install_route_effect tmp route w)
      as (hs1 & more1 & Hlayers & Hstage & _).
    destruct (install_route _ _ _ _ _ _ _) as [w1 [tmp1|e]]; simpl in *.
    + destruct (IH tmp1 w1) as (hs2 & Hlayers2 & Hstage2).
      exists (hs1 ++ hs2). rewrite Hlayers2, Hlayers, app_assoc.
      split; [done|]. apply Forall_app. by split.
    + by exists hs1.
Qed.


Lemma installOperationHandlers_world ctx w :
  (installOperationHandlers h require path_join options ctx w).1
  = (install_routes h require path_join options ∅ (routes ctx) w).1.
Proof.
  unfold installOperationHandlers. rewrite run_bind.
  by destruct (install_routes _ _ _ _ _ _ _) as [w1 [tmp1|e]].
Qed.


Lemma installOperationHandlers_layers ctx w :
  ∃ hs,
    layers (installOperationHandlers h require path_join options ctx w).1
    = layers w ++ hs
    ∧ Forall (λ l, stage l = 6) hs.
Proof.
  rewrite installOperationHandlers_world. apply install_routes_layers.
Qed.

End HandlerFacts.

(** ** The pipeline *)

Lemma sorted_of_constant_stage (k : nat) (ls : list Layer) :
  Forall (λ l, stage l = k) ls → StronglySorted stage_le ls.
Proof.
  induction 1 as [|l ls Hl Hls IH]; constructor; [done|].
  eapply Forall_impl; [exact Hls|]. unfold stage_le. intros l' ->. lia.
Qed.

(** Before the operation handlers come the path parameters, then the
    metadata middleware, then the optional middlewares, in stage order. *)
Lemma pipeline_layers_shape options ctx :
  ∃ params opts,
    pipeline_layers options ctx
    = params ++ app_use (applyOpenApiMetadata ctx) :: opts
    ∧ Forall (λ l, stage l = 0) params
    ∧ Forall (λ l, 2 ≤ stage l ≤ 5) opts
    ∧ StronglySorted stage_le opts.
Proof.
  unfold pipeline_layers. eexists _, _. split; [reflexivity|].
  split; [by apply Forall_fmap, Forall_true|].
  repeat match goal with
         | |- context [if ?c then _ else _] => destruct c
         end; cbn [app];
    (split; [repeat constructor; simpl; lia
            |repeat constructor; unfold stage_le; simpl; lia]).
Qed.

Lemma pipeline_layers_no_security options ctx :
  to_boolean (opt_get (obj_get (apiDoc ctx) "components") "securitySchemes")
  = false →
  Forall (λ l, stage l ≠ 3) (pipeline_layers options ctx).
Proof.
  intros Hnone. unfold pipeline_layers. rewrite Hnone, andb_false_r.
  apply Forall_app. split; [by apply Forall_fmap, Forall_true|].
  repeat match goal with
         | |- context [if ?c then _ else _] => destruct c
         end; cbn [app]; repeat constructor; simpl; lia.
Qed.

Section PipelineFacts.

Variable Spec : Type.
Variable new_OpenApiContext : Spec → JsValue → OpenApiContext.
Variable h : Host.
Variable require : string → Outcome JsValue.
Variable path_join : string → string → string.

(** The registrations of one [installMiddleware]: the pipeline, then the
    operation handlers. *)
Lemma installMiddleware_in_layers options ctx w :
  ∃ hs,
    layers (installMiddleware_in h require path_join options ctx w).1
    = layers w ++ pipeline_layers options ctx ++ hs
    ∧ Forall (λ l, stage l = 6) hs.
Proof.
  rewrite installMiddleware_in_run.
  destruct (to_boolean (operationHandlers options)); unfold when.
  - destruct (installOperationHandlers_layers h require path_join options ctx
                (add_layers w (pipeline_layers options ctx)))
      as (hs & -> & Hhs).
    exists hs. simpl. by rewrite app_assoc.
  - exists []. rewrite run_ret. simpl. by rewrite app_nil_r.
Qed.

(** C2: [installMiddleware] registers in a fixed order: the path-parameter
    overrides, the route-resolution metadata middleware, and then, each
    only if installed, multipart, security, request validation, response
    validation and the operation handlers.  The metadata middleware is
    registered by every installation, and every security, validation and
    handler registration comes after it. *)
Theorem middleware_order options spec w :
  ∃ params rest,
    layers (installMiddleware Spec new_OpenApiContext h require path_join
              options spec w).1
    = layers w ++ params
      ++ app_use (applyOpenApiMetadata
                    (new_OpenApiContext spec (ignorePaths options)))
         :: rest
    ∧ Forall (λ l, stage l = 0) params
    ∧ Forall (λ l, 2 ≤ stage l) rest
    ∧ StronglySorted stage_le
        (params
         ++ app_use (applyOpenApiMetadata
                       (new_OpenApiContext spec (ignorePaths options)))
            :: rest).
Proof.
  unfold installMiddleware.
  set (ctx := new_OpenApiContext spec (ignorePaths options)).
  destruct (installMiddleware_in_layers options ctx w) as (hs & -> & Hhs).
  destruct (pipeline_layers_shape options ctx)
    as (params & opts & -> & Hparams & Hopts & Hsorted).
  exists params, (opts ++ hs).
  assert (Hrest : Forall (λ l, 2 ≤ stage l) (opts ++ hs)).
  { apply Forall_app. split.
    - eapply Forall_impl; [exact Hopts|]. simpl. lia.
    - eapply Forall_impl; [exact Hhs|]. simpl. lia. }
  split_and!; [by rewrite <- !app_assoc|done|done|].
  apply StronglySorted_app_2.
  - intros l1 l2 Hl1 Hl2. unfold stage_le.
    rewrite Forall_forall in Hparams. rewrite (Hparams _ Hl1). lia.
  - by eapply sorted_of_constant_stage.
  - constructor.
    + apply StronglySorted_app_2.
      * intros l1 l2 Hl1 Hl2. unfold stage_le.
        rewrite Forall_forall in Hopts, Hhs.
        specialize (Hopts _ Hl1). rewrite (Hhs _ Hl2). lia.
      * done.
      * by eapply sorted_of_constant_stage.
    + eapply Forall_impl; [exact Hrest|]. unfold stage_le. simpl. lia.
Qed.

(** C9: when the document has no [components.securitySchemes], no
    security middleware is among the registrations of [installMiddleware],
    whatever [validateSecurity] is. *)
Theorem no_security_without_schemes options spec w :
  to_boolean
    (opt_get (obj_get (apiDoc (new_OpenApiContext spec
                                 (ignorePaths options))) "components")
       "securitySchemes") = false →
  ∃ added,
    layers (installMiddleware Spec new_OpenApiContext h require path_join
              options spec w).1
    = layers w ++ added
    ∧ ∀ context handlers, app_use (security context handlers) ∉ added.
Proof.
  intros Hnone. unfold installMiddleware.
  set (ctx := new_OpenApiContext spec (ignorePaths options)) in *.
  destruct (installMiddleware_in_layers options ctx w) as (hs & -> & Hhs).
  exists (pipeline_layers options ctx ++ hs). split; [done|].
  intros context handlers [Hin|Hin]%elem_of_app.
  - pose proof (pipeline_layers_no_security options ctx Hnone) as Hno.
    rewrite Forall_forall in Hno. by apply Hno in Hin.
  - rewrite Forall_forall in Hhs. by apply Hhs in Hin.
Qed.

End PipelineFacts.

(** ** Request validation options *)

Lemma validateRequests_normalizeOptions o :
  validateRequests (normalizeOptions o) = validateRequests o.
Proof.
  unfold normalizeOptions.
  repeat match goal with
         | |- context [if ?c then _ else _] => destruct c
         end; done.
Qed.

Lemma validateRequests_default_to get set v o :
  (∀ v' o', validateRequests (set v' o') = validateRequests o') →
  validateRequests (default_to get set v o) = validateRequests o.
Proof. intros Hset. unfold default_to. by destruct (is_nullish (get o)). Qed.

Lemma validateRequests_applyDefaults o :
  is_nullish (validateRequests o) || is_true (validateRequests o) = true →
  validateRequests (applyDefaults o)
  = JObj {[ "allowUnknownQueryParameters" := JBool false ]}.
Proof.
  intros Hreq. unfold applyDefaults. cbv zeta.
  set (o1 := default_to coerceTypes set_coerceTypes (JBool true) _).
  set (o2 := default_to validateRequests set_validateRequests _ o1).
  assert (H2 : validateRequests o2 = JBool true).
  { unfold o2, default_to.
    assert (H1 : validateRequests o1 = validateRequests o).
    { unfold o1. rewrite validateRequests_default_to by done.
      by destruct (is_nullish (unknownFormats o)). }
    rewrite H1. by destruct (validateRequests o) as [| |[]| | | | |]. }
  set (o3 := default_to validateResponses _ _ o2).
  set (o4 := default_to validateSecurity _ _ o3).
  set (o5 := default_to fileUploader _ _ o4).
  set (o6 := default_to refParser _ _ o5).
  set (o7 := default_to operationHandlers _ _ o6).
  set (o8 := default_to validateFormats _ _ o7).
  assert (H8 : validateRequests o8 = JBool true).
  { unfold o8, o7, o6, o5, o4, o3.
    by rewrite !validateRequests_default_to. }
  clearbody o8.
  destruct (is_true (validateResponses o8));
    cbn [validateRequests set_validateResponses]; rewrite H8;
    cbn [is_true validateRequests set_validateRequests];
    match goal with
    | |- context [if ?c then _ else _] => destruct c
    end; reflexivity.
Qed.

Lemma request_validator_options_allow options allow :
  opt_get (request_validator_options options allow)
    "allowUnknownQueryParameters" = allow.
Proof. by vm_compute. Qed.

Ltac stage_forall :=
  repeat first [apply List.Forall_nil | apply List.Forall_cons; [simpl; lia|]].

Lemma pipeline_layers_request_validator options ctx :
  validateRequests options
  = JObj {[ "allowUnknownQueryParameters" := JBool false ]} →
  ∃ before after,
    pipeline_layers options ctx
    = before
      ++ app_use (RequestValidator (apiDoc ctx)
                    (request_validator_options options (JBool false)))
         :: after
    ∧ Forall (λ l, stage l ≠ 4) before
    ∧ Forall (λ l, stage l ≠ 4) after.
Proof.
  intros Hreq. unfold pipeline_layers. rewrite Hreq.
  change (opt_get (JObj {[ "allowUnknownQueryParameters" := JBool false ]})
            "allowUnknownQueryParameters") with (JBool false).
  cbn [to_boolean].
  set (params := app_param <$> _).
  set (multi := if to_boolean (fileUploader options) then _ else _).
  set (sec := if _ && _ then _ else _).
  set (resp := if to_boolean (validateResponses options) then _ else _).
  exists (params ++ [app_use (applyOpenApiMetadata ctx)] ++ multi ++ sec), resp.
  split; [by rewrite <- !app_assoc|].
  split.
  - rewrite !Forall_app. split_and!.
    + by apply Forall_fmap, Forall_true.
    + stage_forall.
    + unfold multi.
      destruct (to_boolean (fileUploader options)); stage_forall.
    + unfold sec. destruct (_ && _); stage_forall.
  - unfold resp.
    destruct (to_boolean (validateResponses options)); stage_forall.
Qed.

Section RequestValidation.

Variable Spec : Type.
Variable new_OpenApiContext : Spec → JsValue → OpenApiContext.
Variable h : Host.
Variable require : string → Outcome JsValue.
Variable path_join : string → string → string.

(** C3: when [validateRequests] is omitted or [true], the constructor
    turns it into [{ allowUnknownQueryParameters: false }], and
    [installMiddleware] registers exactly one request validator, built
    with [allowUnknownQueryParameters] false. *)
Theorem unknown_query_parameters_rejected_by_default o w0 w1 o' :
  is_nullish (validateRequests o) || is_true (validateRequests o) = true →
  constructor o w0 = (w1, Ret o') →
  validateRequests o'
  = JObj {[ "allowUnknownQueryParameters" := JBool false ]}
  ∧ ∀ spec w,
      ∃ before after ropts,
        layers (installMiddleware Spec new_OpenApiContext h require path_join
                  o' spec w).1
        = layers w ++ before
          ++ app_use (RequestValidator
                        (apiDoc (new_OpenApiContext spec (ignorePaths o')))
                        ropts)
             :: after
        ∧ opt_get ropts "allowUnknownQueryParameters" = JBool false
        ∧ Forall (λ l, stage l ≠ 4) before
        ∧ Forall (λ l, stage l ≠ 4) after.
Proof.
  intros Hreq Hrun. apply constructor_returns in Hrun as ->.
  rewrite <- validateRequests_normalizeOptions in Hreq.
  apply validateRequests_applyDefaults in Hreq.
  set (o' := applyDefaults (normalizeOptions o)) in *.
  split; [done|]. intros spec w. unfold installMiddleware.
  set (ctx := new_OpenApiContext spec (ignorePaths o')).
  destruct (installMiddleware_in_layers h require path_join o' ctx w)
    as (hs & -> & Hhs).
  destruct (pipeline_layers_request_validator o' ctx Hreq)
    as (before & after & -> & Hbefore & Hafter).
  exists before, (after ++ hs), (request_validator_options o' (JBool false)).
  split_and!.
  - by rewrite <- !app_assoc.
  - apply request_validator_options_allow.
  - done.
  - apply Forall_app. split; [done|].
    eapply Forall_impl; [exact Hhs|]. simpl. lia.
Qed.

End RequestValidation.

(** ** Configuration errors of the operation handlers *)

Lemma schema_get_insert_ne (s : gmap string string) k k' v :
  k ≠ k' → schema_get (<[k := v]> s) k' = schema_get s k'.
Proof. intros Hne. unfold schema_get. by rewrite lookup_insert_ne. Qed.

Section HandlerErrors.

Variable Spec : Type.
Variable new_OpenApiContext : Spec → JsValue → OpenApiContext.
Variable h : Host.
Variable require : string → Outcome JsValue.
Variable path_join : string → string → string.
Variable options : OpenApiValidatorOpts.

Lemma install_routes_throws rs route :
  route ∈ rs → mismatched route = true →
  ∀ tmp w, ∃ e,
    (install_routes h require path_join options tmp rs w).2 = Throw e.
Proof.
  intros Hin Hmis. induction rs as [|r rest IH]; intros tmp w.
  - by apply not_elem_of_nil in Hin.
  - cbn [install_routes]. rewrite run_bind.
    apply elem_of_cons in Hin as [<-|Hin].
    + destruct (install_route_cases h require path_join options tmp route w)
        as [[_ [e ->]] | [[Hno _] | [Hno _]]]; [by exists e| |];
        congruence.
    + destruct (install_route _ _ _ _ _ _ _) as [w1 [tmp1|e]]; [|by exists e].
      by apply IH.
Qed.

(** C4: when a route declares an operation identifier
    ([x-eov-operation-id] or [operationId]) without
    [x-eov-operation-handler], or the handler reference without an
    identifier, [installOperationHandlers] throws, and so does
    [installMiddleware] whenever the [operationHandlers] option is on:
    the error is raised while installing. *)
Theorem unpaired_handler_reference_throws spec route :
  route ∈ routes (new_OpenApiContext spec (ignorePaths options)) →
  mismatched route = true →
  (∀ w, ∃ e,
     (installOperationHandlers h require path_join options
        (new_OpenApiContext spec (ignorePaths options)) w).2 = Throw e)
  ∧ (to_boolean (operationHandlers options) = true →
     ∀ w, ∃ e,
       (installMiddleware Spec new_OpenApiContext h require path_join
          options spec w).2 = Throw e).
Proof.
  intros Hin Hmis.
  set (ctx := new_OpenApiContext spec (ignorePaths options)) in *.
  assert (Hthrows : ∀ w, ∃ e,
    (installOperationHandlers h require path_join options ctx w).2
    = Throw e).
  { intros w. unfold installOperationHandlers. rewrite run_bind.
    destruct (install_routes_throws _ _ Hin Hmis ∅ w) as [e He].
    destruct (install_routes _ _ _ _ _ _ _) as [w1 [tmp1|e1]];
      simpl in He; [done|by exists e1]. }
  split; [done|]. intros Hon w. unfold installMiddleware. fold ctx.
  rewrite installMiddleware_in_run, Hon. apply Hthrows.
Qed.

(** C10: when the schema declares [x-eov-operation-id], that is the
    identifier the handler is resolved with, whatever [operationId] says:
    the route is handled as if [operationId] had any other value, and its
    handler is looked up under the extension identifier. *)
Theorem extension_operation_id_takes_precedence route xid :
  schema route !! "x-eov-operation-id" = Some xid →
  xid ≠ "" →
  operation_id (schema route) = JStr xid
  ∧ (∀ opid tmp w,
       install_route h require path_join options tmp
         (with_schema (<["operationId" := opid]> (schema route)) route) w
       = install_route h require path_join options tmp route w)
  ∧ (∀ dir base tmp w,
       operationHandlers options = JStr dir →
       schema route !! "x-eov-operation-handler" = Some base →
       base ≠ "" →
       install_route h require path_join options tmp route w
       = register_handler h require path_join tmp route dir xid base w).
Proof.
  intros Hxid Hne.
  assert (Htruthy : to_boolean (JStr xid) = true).
  { simpl. by apply negb_true_iff, String.eqb_neq. }
  assert (Hid : ∀ s, s !! "x-eov-operation-id" = Some xid →
                     operation_id s = JStr xid).
  { intros s Hs. unfold operation_id, js_or, schema_get.
    rewrite Hs. cbn [from_option]. by rewrite Htruthy. }
  split; [by apply Hid|]. split.
  - intros opid tmp w. unfold install_route.
    cbn [schema with_schema method expressRoute].
    rewrite (Hid (<["operationId" := opid]> (schema route)))
      by (by rewrite lookup_insert_ne).
    rewrite (Hid (schema route)) by done.
    rewrite !schema_get_insert_ne by done.
    reflexivity.
  - intros dir base tmp w Hdir Hbase Hbne.
    apply install_route_paired; try done; [by apply Hid|].
    unfold schema_get. by rewrite Hbase.
Qed.

End HandlerErrors.

(** ** A handler missing from its module *)

Lemma prefix_app (s t : string) : String.prefix s (s +:+ t) = true.
Proof.
  induction s as [|c s IH]; simpl; [by destruct t|].
  by destruct (Ascii.ascii_dec c c).
Qed.

Lemma includes_unfold (t s : string) :
  includes t s
  = String.prefix s t
    || match t with
       | EmptyString => false
       | String _ t' => includes t' s
       end.
Proof. by destruct t. Qed.

Lemma includes_prefix (s t : string) : includes (s +:+ t) s = true.
Proof. by rewrite includes_unfold, prefix_app. Qed.

Lemma includes_app_r (a t s : string) :
  includes t s = true → includes (a +:+ t) s = true.
Proof.
  intros Hin. induction a as [|c a IH]; [done|].
  change (String c a +:+ t) with (String c (a +:+ t)).
  rewrite includes_unfold, IH. apply orb_true_r.
Qed.

(** The message of the missing-handler error names the identifier and the
    module path. *)
Lemma could_not_find_names_both oid mp :
  includes (could_not_find oid mp) oid = true
  ∧ includes (could_not_find oid mp) mp = true.
Proof.
  unfold could_not_find. split.
  - apply includes_app_r, includes_prefix.
  - do 3 apply includes_app_r. apply includes_prefix.
Qed.

Section MissingHandler.

Variable h : Host.
Variable require : string → Outcome JsValue.
Variable path_join : string → string → string.

(** When the module path reads as truthy in the memo and the identifier
    does not read as truthy in the value kept there, the loop throws the
    error of lines 274-276. *)
Lemma missing_handler_in_namespace tmp route dir oid base found w :
  to_boolean (obj_member h tmp (path_join dir base)) = true →
  get_member h (obj_member h tmp (path_join dir base)) oid = Ret found →
  to_boolean found = false →
  register_handler h require path_join tmp route dir oid base w
  = (w, Throw (Error (could_not_find oid (path_join dir base)))).
Proof.
  intros Hmemo Hfound Hmissing.
  by rewrite (register_handler_memoized _ _ _ _ _ _ _ _ _ Hmemo),
    Hfound, Hmissing.
Qed.

(** When a freshly loaded module has neither a truthy [oId] nor a default
    export, the read of line 272 is a read from [undefined]: the loop
    throws the engine's [TypeError], and line 273 is not reached. *)
Lemma default_export_read_throws
    tmp route dir oid base loaded found dflt w :
  to_boolean (obj_member h tmp (path_join dir base)) = false →
  require (path_join dir base) = Ret loaded →
  get_member h loaded oid = Ret found →
  to_boolean found = false →
  get_member h loaded "default" = Ret dflt →
  is_nullish dflt = true →
  register_handler h require path_join tmp route dir oid base w
  = (add_required w (path_join dir base),
     Throw (TypeError (read_error h oid dflt))).
Proof.
  intros Hmemo Hload Hfound Hmissing Hdflt Hnullish.
  rewrite (register_handler_fresh _ _ _ _ _ _ _ _ _ Hmemo), Hload.
  unfold namespace_of. rewrite Hfound, Hmissing, Hdflt.
  by destruct dflt.
Qed.

End MissingHandler.

(** C5, at a module that loads, exports [ping] only and has no default
    export, for a route whose identifier is [pong]: the installation throws
    a [TypeError] for the read of [pong] from [undefined], and its message
    does not name the module path.  This is so under either wording of the
    engine's message. *)
Theorem missing_handler_without_default_export :
  Sample.modules (Sample.join "handlers" "ping")
  = Ret (JObj {[ "ping" := JFun "ping" ]})
  ∧ (∃ e,
       installOperationHandlers Sample.host Sample.modules Sample.join
         Sample.handler_options (Sample.context [Sample.pong])
         Sample.empty_world
       = ({| layers := []; required := ["handlers/ping"]; warnings := [] |},
          Throw e)
       ∧ e = TypeError "Cannot read property 'pong' of undefined"
       ∧ e ≠ Error (could_not_find "pong" (Sample.join "handlers" "ping"))
       ∧ includes (message e) "pong" = true
       ∧ includes (message e) (Sample.join "handlers" "ping") = false)
  ∧ (∃ e,
       installOperationHandlers Sample.later_host Sample.modules Sample.join
         Sample.handler_options (Sample.context [Sample.pong])
         Sample.empty_world
       = ({| layers := []; required := ["handlers/ping"]; warnings := [] |},
          Throw e)
       ∧ e = TypeError "Cannot read properties of undefined (reading 'pong')"
       ∧ e ≠ Error (could_not_find "pong" (Sample.join "handlers" "ping"))
       ∧ includes (message e) "pong" = true
       ∧ includes (message e) (Sample.join "handlers" "ping") = false).
Proof.
  split; [by vm_compute|]. split.
  - exists (TypeError "Cannot read property 'pong' of undefined").
    split_and!; by vm_compute.
  - exists (TypeError "Cannot read properties of undefined (reading 'pong')").
    split_and!; by vm_compute.
Qed.

(** ** Handler resolution *)

Section HandlerResolution.

Variable h : Host.
Variable require : string → Outcome JsValue.
Variable path_join : string → string → string.
Variable options : OpenApiValidatorOpts.

(** C6, as the code has it.  A route whose module path does not read as
    truthy in the memo loads the module and reads the identifier in it, as
    [module[oId]], inherited members included; only when that read is not
    truthy does it turn to the module's default export, which is then what
    the memo keeps for the path.  A route whose module path reads as
    truthy in the memo reads the identifier in the value kept there, and
    nowhere else.  In both cases the value read, when truthy, is handed to
    Express under the route's lower-cased method and its path: it becomes
    the handler of the route, unless Express refuses it, as it does a
    value that is not a function, and then the installation throws. *)
Theorem handler_resolution tmp route dir oid base w :
  operationHandlers options = JStr dir →
  operation_id (schema route) = JStr oid → oid ≠ "" →
  schema_get (schema route) "x-eov-operation-handler" = JStr base →
  base ≠ "" →
  (∀ loaded namespace fn,
     to_boolean (obj_member h tmp (path_join dir base)) = false →
     require (path_join dir base) = Ret loaded →
     namespace_of h loaded oid = Ret namespace →
     get_member h namespace oid = Ret fn →
     to_boolean fn = true →
     install_route h require path_join options tmp route w
     = registration h (toLowerCase (method route)) (expressRoute route) fn
         (add_required w (path_join dir base))
         (<[path_join dir base := namespace]> tmp))
  ∧ (∀ fn,
       to_boolean (obj_member h tmp (path_join dir base)) = true →
       get_member h (obj_member h tmp (path_join dir base)) oid = Ret fn →
       to_boolean fn = true →
       install_route h require path_join options tmp route w
       = registration h (toLowerCase (method route)) (expressRoute route)
           fn w tmp).
Proof.
  intros Hdir Hoid Hne Hbase Hbne.
  rewrite (install_route_paired _ _ _ _ _ _ _ _ _ _ Hdir Hoid Hne Hbase Hbne).
  split.
  - intros loaded namespace fn Hmemo Hload Hns Hfn Htruthy.
    by rewrite (register_handler_fresh _ _ _ _ _ _ _ _ _ Hmemo),
      Hload, Hns, Hfn, Htruthy.
  - intros fn Hmemo Hfn Htruthy.
    by rewrite (register_handler_memoized _ _ _ _ _ _ _ _ _ Hmemo),
      Hfn, Htruthy.
Qed.

End HandlerResolution.

(** C6 as worded fails.  [handlers/users] exports [b] at its top level and
    [a] only under its default export.  The route of [a] loads the module
    and, not finding [a] at the top level, memoizes the default export; the
    route of [b] then gets the default export's [b], although the module
    has a top-level [b]. *)
Lemma per_module_choice_counterexample : ¬ registers_direct_then_default.
Proof.
  intros Hclaim.
  assert (Hfn : JFun "default_b"
    = direct_then_default
        {[ "b" := JFun "top_b";
           "default" := JObj {[ "a" := JFun "default_a";
                                "b" := JFun "default_b" ]} ]} "b").
  { apply (Hclaim Sample.host Sample.modules Sample.join
             Sample.handler_options
             (Sample.context [Sample.users_a; Sample.users_b])
             Sample.empty_world
             {| layers := [app_verb "get" "/a" (JFun "default_a");
                           app_verb "get" "/b" (JFun "default_b")];
                required := ["handlers/users"]; warnings := [] |}
             Sample.users_b "handlers" "b" "users").
    - by vm_compute.
    - cbn [routes Sample.context]. rewrite !elem_of_cons. auto.
    - by vm_compute.
    - by vm_compute.
    - by vm_compute.
    - by vm_compute.
    - cbn [layers]. rewrite !elem_of_cons. right. left. by vm_compute. }
  vm_compute in Hfn. discriminate Hfn.
Qed.


(** ** The memo of an installation *)

Section FirstReference.

Variable h : Host.
Variable require : string → Outcome JsValue.
Variable path_join : string → string → string.
Variable options : OpenApiValidatorOpts.

(** A round of the loop changes the memo at most at the module path of
    its route. *)
Lemma install_route_memo_other tmp route w w' tmp' p :
  install_route h require path_join options tmp route w = (w', Ret tmp') →
  module_path_of path_join options route ≠ Some p →
  tmp' !! p = tmp !! p.
Proof.
  intros Hrun Hother.
  destruct (install_route_cases h require path_join options tmp route w)
    as [[_ [e He]] | [[_ He] | [_ (dir & oid & base & Hdir & _ & Hbase & He)]]];
    rewrite He in Hrun; [done|by simplify_eq|].
  unfold module_path_of in Hother. rewrite Hdir, Hbase in Hother.
  assert (Hne : path_join dir base ≠ p) by congruence.
  set (mp := path_join dir base) in *.
  destruct (to_boolean (obj_member h tmp mp)) eqn:Hmemo.
  - rewrite (register_handler_memoized _ _ _ _ _ _ _ _ _ Hmemo) in Hrun.
    destruct (get_member _ _ _) as [fn|e]; [destruct (to_boolean fn)|];
      try done.
    destruct (registration_cases h (toLowerCase (method route))
                (expressRoute route) fn w tmp) as [[e He'] | He'];
      rewrite He' in Hrun; by simplify_eq.
  - rewrite (register_handler_fresh _ _ _ _ _ _ _ _ _ Hmemo) in Hrun.
    fold mp in Hrun.
    destruct (require mp) as [loaded|e]; [|done].
    destruct (namespace_of h loaded oid) as [namespace|e]; [|done].
    destruct (get_member _ _ _) as [fn|e]; [destruct (to_boolean fn)|];
      try done.
    destruct (registration_cases h (toLowerCase (method route))
                (expressRoute route) fn (add_required w mp)
                (<[mp := namespace]> tmp)) as [[e He'] | He'];
      rewrite He' in Hrun; simplify_eq.
    by rewrite lookup_insert_ne.
Qed.

Lemma install_routes_memo_other rs p : ∀ tmp w w' tmp',
  install_routes h require path_join options tmp rs w = (w', Ret tmp') →
  (∀ r, r ∈ rs → module_path_of path_join options r ≠ Some p) →
  tmp' !! p = tmp !! p.
Proof.
  induction rs as [|r rest IH]; intros tmp w w' tmp' Hrun Hother.
  - cbn [install_routes] in Hrun. rewrite run_ret in Hrun.
    by simplify_eq.
  - cbn [install_routes] in Hrun. rewrite run_bind in Hrun.
    destruct (install_route _ _ _ _ _ _ _) as [w1 [tmp1|e]] eqn:Hstep;
      [|done].
    rewrite (IH _ _ _ _ Hrun).
    + eapply install_route_memo_other; [exact Hstep|].
      apply Hother, elem_of_cons. by left.
    + intros r' Hr'. apply Hother, elem_of_cons. by right.
Qed.

(** The loop over [before ++ rest] runs [before], then [rest] from the
    memo [before] left. *)
Lemma install_routes_app before rest tmp w :
  install_routes h require path_join options tmp (before ++ rest) w
  = match install_routes h require path_join options tmp before w with
    | (w1, Ret tmp1) =>
      install_routes h require path_join options tmp1 rest w1
    | (w1, Throw e) => (w1, Throw e)
    end.
Proof.
  revert tmp w. induction before as [|r before IH]; intros tmp w; [done|].
  cbn [app install_routes]. rewrite !run_bind.
  destruct (install_route _ _ _ _ _ _ _) as [w1 [tmp1|e]]; [|done].
  apply IH.
Qed.

(** In one installation, when the round of a route starts and no earlier
    route named its module path, the memo has no entry of its own for the
    path: it reads as what [{}] inherits under that name, and the round
    loads the module unless that is truthy. *)
Lemma first_reference_not_memoized before w w1 tmp1 p :
  install_routes h require path_join options ∅ before w = (w1, Ret tmp1) →
  (∀ r, r ∈ before → module_path_of path_join options r ≠ Some p) →
  obj_member h tmp1 p = inherited h p.
Proof.
  intros Hrun Hother. unfold obj_member.
  by rewrite (install_routes_memo_other _ _ _ _ _ _ Hrun Hother).
Qed.

(** The memo never gets an own [__proto__]: the assignments of lines 266
    and 269 add own properties under other names only. *)
Lemma install_route_keeps_proto tmp route w w' tmp' :
  tmp !! "__proto__" = None →
  install_route h require path_join options tmp route w = (w', Ret tmp') →
  tmp' !! "__proto__" = None.
Proof.
  intros Hnone Hrun.
  destruct (install_route_cases h require path_join options tmp route w)
    as [[_ [e He]] | [[_ He] | [_ (dir & oid & base & _ & _ & _ & He)]]];
    rewrite He in Hrun; [done|by simplify_eq|].
  rewrite register_handler_run in Hrun.
  destruct (load_module _ _ _ _ _ _) as [w1 [tmp1|e]] eqn:Hload; [|done].
  apply (load_module_keeps_proto _ _ _ _ _ _ _ _ Hnone) in Hload.
  destruct (get_member _ _ _) as [fn|e]; [destruct (to_boolean fn)|];
    try done.
  destruct (registration_cases h (toLowerCase (method route))
              (expressRoute route) fn w1 tmp1) as [[e He'] | He'];
    rewrite He' in Hrun; by simplify_eq.
Qed.

Lemma install_routes_keep_proto rs : ∀ tmp w w' tmp',
  tmp !! "__proto__" = None →
  install_routes h require path_join options tmp rs w = (w', Ret tmp') →
  tmp' !! "__proto__" = None.
Proof.
  induction rs as [|r rest IH]; intros tmp w w' tmp' Hnone Hrun.
  - cbn [install_routes] in Hrun. rewrite run_ret in Hrun.
    by simplify_eq.
  - cbn [install_routes] in Hrun. rewrite run_bind in Hrun.
    destruct (install_route _ _ _ _ _ _ _) as [w1 [tmp1|e]] eqn:Hstep;
      [|done].
    eapply IH; [|exact Hrun].
    by eapply install_route_keeps_proto.
Qed.

End FirstReference.

(** ** The theorems at the sample inputs *)

Lemma unknownFormats_default_not_applied_witness :
  unknownFormats (applyDefaults (normalizeOptions Sample.options))
  = unknownFormats Sample.options
  ∧ is_nullish
      (unknownFormats (applyDefaults (normalizeOptions Sample.options)))
    = true
  ∧ unknownFormats (applyDefaults (normalizeOptions Sample.options))
    ≠ JBool true.
Proof.
  apply (unknownFormats_default_not_applied Sample.options
           Sample.empty_world Sample.empty_world).
  - reflexivity.
  - vm_compute. reflexivity.
Defined.

Lemma conflicting_options_throw_witness :
  ∃ w' e,
    constructor Sample.conflicting_options Sample.empty_world
    = (w', Throw e).
Proof.
  apply (conflicting_options_throw Sample.conflicting_options
           Sample.empty_world).
  reflexivity.
Defined.

Lemma unknown_query_parameters_rejected_by_default_witness :
  validateRequests (applyDefaults (normalizeOptions Sample.options))
  = JObj {[ "allowUnknownQueryParameters" := JBool false ]}
  ∧ ∀ spec w,
      ∃ before after ropts,
        layers (installMiddleware (list RouteMetadata) Sample.new_context
                  Sample.host Sample.modules Sample.join
                  (applyDefaults (normalizeOptions Sample.options))
                  spec w).1
        = layers w ++ before
          ++ app_use (RequestValidator
                        (apiDoc (Sample.new_context spec
                                   (ignorePaths
                                      (applyDefaults
                                         (normalizeOptions Sample.options)))))
                        ropts)
             :: after
        ∧ opt_get ropts "allowUnknownQueryParameters" = JBool false
        ∧ Forall (λ l, stage l ≠ 4) before
        ∧ Forall (λ l, stage l ≠ 4) after.
Proof.
  apply (unknown_query_parameters_rejected_by_default (list RouteMetadata)
           Sample.new_context Sample.host Sample.modules Sample.join
           Sample.options
           Sample.empty_world Sample.empty_world).
  - reflexivity.
  - vm_compute. reflexivity.
Defined.

Lemma unpaired_handler_reference_throws_witness :
  (∀ w, ∃ e,
     (installOperationHandlers Sample.host Sample.modules Sample.join
        Sample.handler_options
        (Sample.new_context [Sample.ping; Sample.unpaired]
           (ignorePaths Sample.handler_options)) w).2 = Throw e)
  ∧ (to_boolean (operationHandlers Sample.handler_options) = true →
     ∀ w, ∃ e,
       (installMiddleware (list RouteMetadata) Sample.new_context
          Sample.host Sample.modules Sample.join Sample.handler_options
          [Sample.ping; Sample.unpaired] w).2 = Throw e).
Proof.
  apply (unpaired_handler_reference_throws (list RouteMetadata)
           Sample.new_context Sample.host Sample.modules Sample.join
           Sample.handler_options [Sample.ping; Sample.unpaired]
           Sample.unpaired).
  - apply elem_of_cons. right. apply elem_of_cons. left. reflexivity.
  - vm_compute. reflexivity.
Defined.

Lemma no_security_without_schemes_witness :
  ∃ added,
    layers (installMiddleware (list RouteMetadata) Sample.new_context
              Sample.host Sample.modules Sample.join Sample.handler_options
              [Sample.ping] Sample.empty_world).1
    = layers Sample.empty_world ++ added
    ∧ ∀ context handlers, app_use (security context handlers) ∉ added.
Proof.
  apply (no_security_without_schemes (list RouteMetadata) Sample.new_context
           Sample.host Sample.modules Sample.join
           Sample.handler_options [Sample.ping]
           Sample.empty_world).
  vm_compute. reflexivity.
Defined.

Lemma extension_operation_id_takes_precedence_witness :
  operation_id (schema Sample.both_ids) = JStr "ping"
  ∧ (∀ opid tmp w,
       install_route Sample.host Sample.modules Sample.join
         Sample.handler_options tmp
         (with_schema (<["operationId" := opid]> (schema Sample.both_ids))
            Sample.both_ids) w
       = install_route Sample.host Sample.modules Sample.join
           Sample.handler_options tmp Sample.both_ids w)
  ∧ (∀ dir base tmp w,
       operationHandlers Sample.handler_options = JStr dir →
       schema Sample.both_ids !! "x-eov-operation-handler" = Some base →
       base ≠ "" →
       install_route Sample.host Sample.modules Sample.join
         Sample.handler_options tmp Sample.both_ids w
       = register_handler Sample.host Sample.modules Sample.join tmp
           Sample.both_ids dir "ping" base w).
Proof.
  apply (extension_operation_id_takes_precedence Sample.host
           Sample.modules Sample.join Sample.handler_options
           Sample.both_ids "ping").
  - vm_compute. reflexivity.
  - discriminate.
Defined.

(** The route of [a] loads [handlers/users] and gets the default export's
    [a]; with the default export memoized, the route of [b] gets its [b]. *)
Lemma handler_resolution_witness :
  install_route Sample.host Sample.modules Sample.join
    Sample.handler_options ∅ Sample.users_a Sample.empty_world
  = ({| layers := [app_verb "get" "/a" (JFun "default_a")];
        required := ["handlers/users"]; warnings := [] |},
     Ret {[ "handlers/users" :=
              JObj {[ "a" := JFun "default_a"; "b" := JFun "default_b" ]} ]})
  ∧ install_route Sample.host Sample.modules Sample.join
      Sample.handler_options
      {[ "handlers/users" :=
           JObj {[ "a" := JFun "default_a"; "b" := JFun "default_b" ]} ]}
      Sample.users_b Sample.empty_world
    = ({| layers := [app_verb "get" "/b" (JFun "default_b")];
          required := []; warnings := [] |},
       Ret {[ "handlers/users" :=
                JObj {[ "a" := JFun "default_a";
                        "b" := JFun "default_b" ]} ]}).
Proof.
  split.
  - exact (proj1 (handler_resolution Sample.host Sample.modules Sample.join
                    Sample.handler_options ∅ Sample.users_a
                    "handlers" "a" "users" Sample.empty_world
                    eq_refl eq_refl ltac:(discriminate) eq_refl
                    ltac:(discriminate))
             (JObj {[ "b" := JFun "top_b";
                      "default" := JObj {[ "a" := JFun "default_a";
                                           "b" := JFun "default_b" ]} ]})
             (JObj {[ "a" := JFun "default_a"; "b" := JFun "default_b" ]})
             (JFun "default_a")
             eq_refl eq_refl eq_refl eq_refl eq_refl).
  - exact (proj2 (handler_resolution Sample.host Sample.modules Sample.join
                    Sample.handler_options
                    {[ "handlers/users" :=
                         JObj {[ "a" := JFun "default_a";
                                 "b" := JFun "default_b" ]} ]}
                    Sample.users_b
                    "handlers" "b" "users" Sample.empty_world
                    eq_refl eq_refl ltac:(discriminate) eq_refl
                    ltac:(discriminate))
             (JFun "default_b") eq_refl eq_refl eq_refl).
Defined.


(** Two routes of one module: the module is [require]d once. *)
Example one_module_two_routes :
  required (installOperationHandlers Sample.host Sample.modules Sample.join
              Sample.handler_options
              (Sample.context [Sample.users_a; Sample.users_b])
              Sample.empty_world).1
  = ["handlers/users"].
Proof. by vm_compute. Qed.

(** The registrations of an installation with the default options and a
    handler directory, for the single route [ping]. *)
Example sample_installation :
  stage <$> layers (installMiddleware (list RouteMetadata)
                      Sample.new_context Sample.host Sample.modules Sample.join
                      Sample.handler_options [Sample.ping]
                      Sample.empty_world).1
  = [1; 2; 4; 6].
Proof. by vm_compute. Qed.

(** [{ multerOpts: {}, fileUploader: false }] passes the constructor: a
    falsy [fileUploader] is not a conflict. *)
Example falsy_fileUploader_is_no_conflict :
  ∃ o',
    constructor
      (set_fileUploader (JBool false)
         (set_multerOpts (JObj ∅) Sample.options))
      Sample.empty_world
    = ({| layers := []; required := [];
          warnings := ["multerOpts is deprecated. Use fileUploader instead."] |},
       Ret o')
    ∧ fileUploader o' = JObj ∅.
Proof. eexists. split; by vm_compute. Qed.

(** A module that is a number is loaded once for each route that names
    it: the memo keeps the falsy [0]. *)
Example number_module_two_routes :
  installOperationHandlers Sample.host Sample.number_module Sample.join
    Sample.handler_options (Sample.context [Sample.zero_a; Sample.zero_b])
    Sample.empty_world
  = ({| layers := [app_verb "get" "/a" (JFun "Number.prototype.toFixed");
                   app_verb "get" "/b" (JFun "Number.prototype.toFixed")];
        required := ["handlers/zero"; "handlers/zero"]; warnings := [] |},
     Ret tt).
Proof. by vm_compute. Qed.

(** An identifier that names a member every object inherits is found in
    the module itself, whatever the default export has: the route of
    [toString] gets [Object.prototype.toString]. *)
Example inherited_identifier :
  installOperationHandlers Sample.host Sample.modules Sample.join
    Sample.handler_options
    (Sample.context
       [Sample.route "/s" "GET"
          {[ "operationId" := "toString";
             "x-eov-operation-handler" := "users" ]}])
    Sample.empty_world
  = ({| layers := [app_verb "get" "/s" (JFun "Object.prototype.toString")];
        required := ["handlers/users"]; warnings := [] |},
     Ret tt).
Proof. by vm_compute. Qed.

(** A handler that is not a function is refused by Express: the
    installation throws its error. *)
Example handler_that_is_no_function :
  install_route Sample.host
    (λ _, Ret (JObj {[ "ping" := JStr "not a function" ]})) Sample.join
    Sample.handler_options ∅ Sample.ping Sample.empty_world
  = ({| layers := []; required := ["handlers/ping"]; warnings := [] |},
     Throw (Error "Route.get() requires a callback function but got a [object String]")).
Proof. by vm_compute. Qed.

Example uniq_keeps_first_occurrences :
  uniq ["id"; "name"; "id"; "tag"; "name"] = ["id"; "name"; "tag"].
Proof. reflexivity. Qed.

Example toLowerCase_of_a_method : toLowerCase "GET" = "get".
Proof. reflexivity. Qed.

(** ** The constructor, in closed form *)

Ltac opts_simpl :=
  cbn [apiSpec validateResponses validateRequests validateSecurity
       securityHandlers ignorePaths coerceTypes unknownFormats fileUploader
       multerOpts refParser operationHandlers validateFormats
       set_validateResponses set_validateRequests set_validateSecurity
       set_securityHandlers set_coerceTypes set_fileUploader set_multerOpts
       set_refParser set_operationHandlers set_validateFormats] in *.

Lemma default_to_set get set d o :
  (∀ o', set (get o') o' = o') →
  default_to get set d o = set (defaulted d (get o)) o.
Proof.
  intros Heta. unfold default_to, defaulted.
  by destruct (is_nullish (get o)).
Qed.

Lemma expanded_set (get : OpenApiValidatorOpts → JsValue)
    (set : JsValue → OpenApiValidatorOpts → OpenApiValidatorOpts) lit o :
  (∀ o', set (get o') o' = o') →
  (if is_true (get o) then set lit o else o) = set (expanded lit (get o)) o.
Proof. intros Heta. unfold expanded. by destruct (is_true (get o)). Qed.

Lemma applyDefaults_eq o :
  applyDefaults o =
  {| apiSpec := apiSpec o;
     validateResponses :=
       expanded (JObj {[ "removeAdditional" := JBool false ]})
         (defaulted (JBool false) (validateResponses o));
     validateRequests :=
       expanded (JObj {[ "allowUnknownQueryParameters" := JBool false ]})
         (defaulted (JBool true) (validateRequests o));
     validateSecurity :=
       expanded (JObj ∅) (defaulted (JBool true) (validateSecurity o));
     securityHandlers := securityHandlers o;
     ignorePaths := ignorePaths o;
     coerceTypes := defaulted (JBool true) (coerceTypes o);
     unknownFormats := unknownFormats o;
     fileUploader := defaulted (JObj ∅) (fileUploader o);
     multerOpts := multerOpts o;
     refParser := defaulted (JObj {[ "mode" := JStr "bundle" ]}) (refParser o);
     operationHandlers := defaulted (JBool false) (operationHandlers o);
     validateFormats := defaulted (JStr "fast") (validateFormats o) |}.
Proof.
  unfold applyDefaults. cbv zeta.
  replace (if is_nullish (unknownFormats o) then o else o) with o
    by (by destruct (is_nullish (unknownFormats o))).
  rewrite !default_to_set by (by intros []).
  rewrite (expanded_set validateResponses set_validateResponses)
    by (by intros []).
  rewrite (expanded_set validateRequests set_validateRequests)
    by (by intros []).
  rewrite (expanded_set validateSecurity set_validateSecurity)
    by (by intros []).
  by destruct o.
Qed.

Lemma normalizeOptions_eq o :
  normalizeOptions o =
  {| apiSpec := apiSpec o;
     validateResponses := validateResponses o;
     validateRequests := validateRequests o;
     validateSecurity :=
       if to_boolean (securityHandlers o)
       then JObj {[ "handlers" := securityHandlers o ]}
       else validateSecurity o;
     securityHandlers :=
       if to_boolean (securityHandlers o) then JUndefined
       else securityHandlers o;
     ignorePaths := ignorePaths o;
     coerceTypes := coerceTypes o;
     unknownFormats := unknownFormats o;
     fileUploader :=
       if to_boolean (multerOpts o) then multerOpts o else fileUploader o;
     multerOpts :=
       if to_boolean (multerOpts o) then JUndefined else multerOpts o;
     refParser := refParser o;
     operationHandlers := operationHandlers o;
     validateFormats := validateFormats o |}.
Proof.
  unfold normalizeOptions. destruct o as [? ? ? ? sh ? ? ? ? mo ? ? ?].
  cbn [securityHandlers multerOpts].
  destruct (to_boolean sh); cbn [multerOpts set_securityHandlers
    set_validateSecurity]; by destruct (to_boolean mo).
Qed.

(** ** [validateOptions], check by check *)

Lemma add_warnings_nil w : add_warnings w [] = w.
Proof. destruct w. unfold add_warnings. simpl. by rewrite app_nil_r. Qed.

Lemma add_warnings_app w l1 l2 :
  add_warnings (add_warnings w l1) l2 = add_warnings w (l1 ++ l2).
Proof. unfold add_warnings. simpl. by rewrite app_assoc. Qed.

Lemma legacy_check_run v err warn w :
  when (negb (is_nullish v))
    (when (negb (String.eqb (typeof v) "object") || isArray v)
       (throw (Error err));;
     deprecationWarning warn) w
  = if legacy_option_ok v
    then (add_warnings w (if is_nullish v then [] else [warn]), Ret tt)
    else (w, Throw (Error err)).
Proof.
  destruct v; cbn [is_nullish negb when typeof isArray legacy_option_ok orb
                   andb]; rewrite ?add_warnings_nil; try reflexivity.
Qed.

Lemma unknownFormats_check_run v w :
  (if String.eqb (typeof v) "boolean" then
     when (negb (to_boolean v))
       (throw (Error "unknownFormats must contain an array of unknownFormats, 'ignore' or true"))
   else
     when (String.eqb (typeof v) "string"
           && negb (if v is JStr s then String.eqb s "ignore" else false)
           && negb (isArray v))
       (throw (Error "unknownFormats must contain an array of unknownFormats, 'ignore' or true"))) w
  = if unknownFormats_ok v then (w, Ret tt)
    else (w, Throw (Error "unknownFormats must contain an array of unknownFormats, 'ignore' or true")).
Proof.
  destruct v as [| |[]| |s| | |]; try reflexivity.
  cbn [typeof unknownFormats_ok isArray]. by destruct (String.eqb s "ignore").
Qed.

Lemma validateOptions_accepted o w :
  options_accepted o = true →
  validateOptions o w = (add_warnings w (legacy_warnings o), Ret tt).
Proof.
  unfold options_accepted, legacy_warnings. rewrite !andb_true_iff.
  rewrite !negb_true_iff.
  intros [[[[[Hspec Hsh] Hc1] Hmo] Hc2] Huf].
  unfold validateOptions. rewrite run_bind, Hspec. cbn [negb when].
  rewrite run_ret, run_bind, legacy_check_run, Hsh.
  rewrite run_bind, Hc1. cbn [when]. rewrite run_ret.
  rewrite run_bind, legacy_check_run, Hmo.
  rewrite run_bind, Hc2. cbn [when]. rewrite run_ret.
  by rewrite unknownFormats_check_run, Huf, add_warnings_app.
Qed.

Lemma validateOptions_rejected o w :
  options_accepted o = false →
  ∃ w' e, validateOptions o w = (w', Throw e).
Proof.
  unfold options_accepted. intros Hrej. unfold validateOptions.
  rewrite run_bind.
  destruct (to_boolean (apiSpec o)); cbn [negb when];
    [rewrite run_ret|unfold throw; eauto].
  rewrite run_bind, legacy_check_run.
  destruct (legacy_option_ok (securityHandlers o)); [|eauto].
  rewrite run_bind.
  destruct (to_boolean (securityHandlers o) && to_boolean (validateSecurity o));
    cbn [when]; [unfold throw; eauto|rewrite run_ret].
  rewrite run_bind, legacy_check_run.
  destruct (legacy_option_ok (multerOpts o)); [|eauto].
  rewrite run_bind.
  destruct (to_boolean (multerOpts o) && to_boolean (fileUploader o));
    cbn [when]; [unfold throw; eauto|rewrite run_ret].
  rewrite unknownFormats_check_run.
  destruct (unknownFormats_ok (unknownFormats o)); [done|eauto].
Qed.

(** ** What the constructor accepts, prints and leaves *)

Lemma constructor_accepted o w :
  options_accepted o = true →
  constructor o w
  = (add_warnings w (legacy_warnings o),
     Ret (applyDefaults (normalizeOptions o))).
Proof.
  intros Hacc. unfold constructor.
  by rewrite run_bind, validateOptions_accepted.
Qed.

Lemma constructor_rejected o w :
  options_accepted o = false → ∃ w' e, constructor o w = (w', Throw e).
Proof.
  intros Hacc. unfold constructor. rewrite run_bind.
  destruct (validateOptions_rejected o w Hacc) as (w1 & e & ->). eauto.
Qed.

Lemma constructor_returns_accepted o w w' o' :
  constructor o w = (w', Ret o') →
  options_accepted o = true
  ∧ w' = add_warnings w (legacy_warnings o)
  ∧ o' = applyDefaults (normalizeOptions o).
Proof.
  destruct (options_accepted o) eqn:Hacc.
  - rewrite constructor_accepted by done. by intros [= <- <-].
  - destruct (constructor_rejected o w Hacc) as (w1 & e & ->). by intros [=].
Qed.

(** X1: without a truthy [apiSpec] the constructor throws
    ['apiSpec required'] before anything else is looked at: nothing is
    printed, whatever the other options are. *)
Theorem apiSpec_is_required o w :
  to_boolean (apiSpec o) = false →
  constructor o w = (w, Throw (Error "apiSpec required")).
Proof.
  intros Hspec. unfold constructor, validateOptions.
  by rewrite !run_bind, Hspec.
Qed.

(** X2: the constructor returns exactly for the options that pass every
    check: a truthy [apiSpec]; [securityHandlers] and [multerOpts] each
    [null], [undefined] or a non-array object; not both [securityHandlers]
    and [validateSecurity] truthy, nor both [multerOpts] and
    [fileUploader]; and an [unknownFormats] that is neither [false] nor a
    string other than ['ignore'].  Otherwise it throws. *)
Theorem constructor_accepts_iff o w :
  ((∃ w' o', constructor o w = (w', Ret o')) ↔ options_accepted o = true)
  ∧ ((∃ w' e, constructor o w = (w', Throw e))
     ↔ options_accepted o = false).
Proof.
  destruct (options_accepted o) eqn:Hacc.
  - rewrite constructor_accepted by done.
    split; split; try done; [eauto|]. by intros (w' & e & [=]).
  - destruct (constructor_rejected o w Hacc) as (w1 & e & ->).
    split; split; try done; [|eauto]. by intros (w' & o' & [=]).
Qed.

(** X3: a construction that succeeds prints one deprecation warning for
    each legacy option supplied, [securityHandlers] first, and nothing
    else; it registers nothing and loads no module. *)
Theorem constructor_prints_legacy_warnings o w w' o' :
  constructor o w = (w', Ret o') →
  warnings w' = warnings w ++ legacy_warnings o
  ∧ layers w' = layers w
  ∧ required w' = required w.
Proof. by intros (_ & -> & _)%constructor_returns_accepted. Qed.

Lemma legacy_option_ok_falsy_nullish v :
  legacy_option_ok v = true → to_boolean v = false → is_nullish v = true.
Proof. by destruct v. Qed.

Lemma legacy_option_cleared v :
  legacy_option_ok v = true →
  is_nullish (if to_boolean v then JUndefined else v) = true.
Proof. by destruct v. Qed.

Lemma defaulted_not_nullish d v :
  is_nullish d = false → is_nullish (defaulted d v) = false.
Proof. intros Hd. unfold defaulted. by destruct (is_nullish v) eqn:Hv. Qed.

Lemma expanded_not_nullish lit v :
  is_nullish lit = false → is_nullish v = false →
  is_nullish (expanded lit v) = false.
Proof. intros Hlit Hv. unfold expanded. by destruct (is_true v). Qed.

Lemma expanded_not_true lit v :
  is_true lit = false → is_true (expanded lit v) = false.
Proof. intros Hlit. unfold expanded. by destruct (is_true v) eqn:Hv. Qed.

Lemma applyDefaults_normalized o :
  is_nullish (securityHandlers o) = true →
  is_nullish (multerOpts o) = true →
  options_normalized (applyDefaults o) = true.
Proof.
  intros Hsh Hmo. rewrite applyDefaults_eq. unfold options_normalized.
  opts_simpl. rewrite Hsh, Hmo.
  rewrite !defaulted_not_nullish by done.
  rewrite !expanded_not_nullish by (by rewrite ?defaulted_not_nullish).
  by rewrite !expanded_not_true.
Qed.

(** X4: the options a validator keeps are normalised: every option the
    constructor defaults is set, [validateRequests], [validateResponses]
    and [validateSecurity] are never the bare [true], and
    [securityHandlers] and [multerOpts] are gone. *)
Theorem constructed_options_are_normalized o w w' o' :
  constructor o w = (w', Ret o') → options_normalized o' = true.
Proof.
  intros (Hacc & _ & ->)%constructor_returns_accepted.
  unfold options_accepted in Hacc. rewrite !andb_true_iff in Hacc.
  destruct Hacc as [[[[[_ Hsh] _] Hmo] _] _].
  apply applyDefaults_normalized; rewrite normalizeOptions_eq; opts_simpl;
    by apply legacy_option_cleared.
Qed.

Lemma defaulted_id d v : is_nullish v = false → defaulted d v = v.
Proof. intros Hv. unfold defaulted. by rewrite Hv. Qed.

Lemma expanded_id lit v : is_true v = false → expanded lit v = v.
Proof. intros Hv. unfold expanded. by rewrite Hv. Qed.

Lemma nullish_falsy v : is_nullish v = true → to_boolean v = false.
Proof. by destruct v. Qed.

(** Normalised options that pass the checks are a fixed point of the
    constructor. *)
Lemma constructor_fixed_point o w :
  options_normalized o = true → options_accepted o = true →
  constructor o w = (w, Ret o).
Proof.
  intros Hnorm Hacc. rewrite constructor_accepted by done.
  unfold options_normalized in Hnorm. rewrite !andb_true_iff in Hnorm.
  rewrite !negb_true_iff in Hnorm.
  destruct Hnorm as [[[[[[[[[[[[H1 H2] H3] H4] H5] H6] H7] H8] H9] H10] H11]
    Hsh] Hmo].
  unfold legacy_warnings. rewrite Hsh, Hmo. cbn [app].
  rewrite add_warnings_nil. f_equal. f_equal.
  rewrite applyDefaults_eq, normalizeOptions_eq. opts_simpl.
  rewrite (nullish_falsy _ Hsh), (nullish_falsy _ Hmo).
  rewrite !defaulted_id by done. rewrite !expanded_id by done.
  by destruct o.
Qed.

(** X5: constructing a validator from the options another validator keeps
    changes nothing: the second construction succeeds, prints nothing and
    keeps the same options. *)
Theorem constructor_is_idempotent o w w' o' :
  constructor o w = (w', Ret o') →
  ∀ w1, constructor o' w1 = (w1, Ret o').
Proof.
  intros (Hacc & _ & ->)%constructor_returns_accepted w1.
  apply constructor_fixed_point.
  - unfold options_accepted in Hacc. rewrite !andb_true_iff in Hacc.
    destruct Hacc as [[[[[_ Hsh] _] Hmo] _] _].
    apply applyDefaults_normalized; rewrite normalizeOptions_eq; opts_simpl;
      by apply legacy_option_cleared.
  - revert Hacc. unfold options_accepted.
    rewrite applyDefaults_eq, normalizeOptions_eq. opts_simpl.
    rewrite !andb_true_iff. intros [[[[[Hspec Hsh] _] Hmo] _] Huf].
    pose proof (legacy_option_cleared _ Hsh) as Hsh'.
    pose proof (legacy_option_cleared _ Hmo) as Hmo'.
    rewrite Hspec, Huf.
    unfold legacy_option_ok. rewrite Hsh', Hmo'.
    by rewrite (nullish_falsy _ Hsh'), (nullish_falsy _ Hmo').
Qed.

(** X6: the constructor never overrides what the caller chose: an option
    given a value other than [null] and [undefined] keeps it, except that
    the bare [true] of the three switches is expanded and that a legacy
    option replaces [validateSecurity] or [fileUploader]. *)
Theorem explicit_options_are_kept o w w' o' :
  constructor o w = (w', Ret o') →
  apiSpec o' = apiSpec o
  ∧ ignorePaths o' = ignorePaths o
  ∧ unknownFormats o' = unknownFormats o
  ∧ (is_nullish (coerceTypes o) = false → coerceTypes o' = coerceTypes o)
  ∧ (is_nullish (refParser o) = false → refParser o' = refParser o)
  ∧ (is_nullish (operationHandlers o) = false →
     operationHandlers o' = operationHandlers o)
  ∧ (is_nullish (validateFormats o) = false →
     validateFormats o' = validateFormats o)
  ∧ (is_nullish (validateRequests o) = false →
     is_true (validateRequests o) = false →
     validateRequests o' = validateRequests o)
  ∧ (is_nullish (validateResponses o) = false →
     is_true (validateResponses o) = false →
     validateResponses o' = validateResponses o)
  ∧ (to_boolean (securityHandlers o) = false →
     is_nullish (validateSecurity o) = false →
     is_true (validateSecurity o) = false →
     validateSecurity o' = validateSecurity o)
  ∧ (to_boolean (multerOpts o) = false →
     is_nullish (fileUploader o) = false →
     fileUploader o' = fileUploader o).
Proof.
  intros (_ & _ & ->)%constructor_returns_accepted.
  rewrite applyDefaults_eq, normalizeOptions_eq. opts_simpl.
  split_and!; try done.
  - apply defaulted_id.
  - apply defaulted_id.
  - apply defaulted_id.
  - apply defaulted_id.
  - intros Hn Ht. by rewrite defaulted_id, expanded_id.
  - intros Hn Ht. by rewrite defaulted_id, expanded_id.
  - intros -> Hn Ht. by rewrite defaulted_id, expanded_id.
  - intros -> Hn. by rewrite defaulted_id.
Qed.

(** ** The handlers an installation registers *)

Lemma layers_add_required w p : layers (add_required w p) = layers w.
Proof. reflexivity. Qed.

Section RegisteredHandlers.

Variable h : Host.
Variable require : string → Outcome JsValue.
Variable path_join : string → string → string.
Variable options : OpenApiValidatorOpts.

(** A route that is not [handled] is skipped or refused without touching
    anything; a [handled] route goes to [register_handler]. *)
Lemma install_route_by_handled tmp route w :
  (handled options route = false
   ∧ ((∃ e, install_route h require path_join options tmp route w
            = (w, Throw e))
      ∨ install_route h require path_join options tmp route w = (w, Ret tmp)))
  ∨ (handled options route = true
     ∧ ∃ dir oid base,
         install_route h require path_join options tmp route w
         = register_handler h require path_join tmp route dir oid base w).
Proof.
  unfold install_route, handled, declares_operation_id,
    declares_handler, declares, operation_id, js_or.
  destruct (schema_get_cases (schema route) "x-eov-operation-id")
    as [-> | [xid ->]];
    destruct (schema_get_cases (schema route) "operationId")
      as [-> | [opid ->]];
    destruct (schema_get_cases (schema route) "x-eov-operation-handler")
      as [-> | [base ->]];
    try destruct (String.eqb xid "") eqn:Exid;
    try destruct (String.eqb opid "") eqn:Eopid;
    try destruct (String.eqb base "") eqn:Ebase;
    repeat (progress (cbn [to_boolean negb andb orb when];
                      rewrite ?Exid, ?Eopid, ?Ebase));
    rewrite ?run_bind, ?run_ret;
    try (left; split; [done|]; left; unfold throw; eauto; fail);
    try (left; split; [done|]; right; done);
    destruct (operationHandlers options) as [| |?|?|dir|?|?|?];
    cbn [typeof String.eqb Ascii.eqb Bool.eqb];
    try (left; split; [done|]; right; done);
    try (right; split; [done|]; eauto 10; fail).
Qed.

(** [register_handler] either throws, registering nothing, or registers
    one handler, a truthy value, under the route's verb and path. *)
Lemma register_handler_layers tmp route dir oid base w :
  (∃ e, (register_handler h require path_join tmp route dir oid base w).2
        = Throw e
        ∧ layers (register_handler h require path_join tmp route dir oid
                    base w).1 = layers w)
  ∨ (∃ fn tmp',
       (register_handler h require path_join tmp route dir oid base w).2
       = Ret tmp'
       ∧ to_boolean fn = true
       ∧ layers (register_handler h require path_join tmp route dir oid
                   base w).1
         = layers w ++ [app_verb (toLowerCase (method route))
                          (expressRoute route) fn]).
Proof.
  assert (Hreg : ∀ fn w1 tmp1,
    to_boolean fn = true → layers w1 = layers w →
    (∃ e, (registration h (toLowerCase (method route)) (expressRoute route)
             fn w1 tmp1).2 = Throw e
          ∧ layers (registration h (toLowerCase (method route))
                      (expressRoute route) fn w1 tmp1).1 = layers w)
    ∨ (∃ fn' tmp',
         (registration h (toLowerCase (method route)) (expressRoute route)
            fn w1 tmp1).2 = Ret tmp'
         ∧ to_boolean fn' = true
         ∧ layers (registration h (toLowerCase (method route))
                     (expressRoute route) fn w1 tmp1).1
           = layers w ++ [app_verb (toLowerCase (method route))
                            (expressRoute route) fn'])).
  { intros fn w1 tmp1 Hfn Hw1.
    destruct (registration_cases h (toLowerCase (method route))
                (expressRoute route) fn w1 tmp1) as [[e ->] | ->].
    - left. by exists e.
    - right. exists fn, tmp1. cbn. by rewrite Hw1. }
  set (mp := path_join dir base).
  destruct (to_boolean (obj_member h tmp mp)) eqn:Hmemo.
  - rewrite (register_handler_memoized _ _ _ _ _ _ _ _ _ Hmemo). fold mp.
    destruct (get_member h (obj_member h tmp mp) oid) as [fn|e];
      [destruct (to_boolean fn) eqn:Hfn|]; eauto.
  - rewrite (register_handler_fresh _ _ _ _ _ _ _ _ _ Hmemo). fold mp.
    destruct (require mp) as [loaded|e]; [|eauto].
    destruct (namespace_of h loaded oid) as [namespace|e]; [|eauto].
    destruct (get_member h namespace oid) as [fn|e];
      [destruct (to_boolean fn) eqn:Hfn|]; eauto.
Qed.

Lemma install_routes_keys rs : ∀ tmp w,
  ∃ hs done,
    layers (install_routes h require path_join options tmp rs w).1
    = layers w ++ hs
    ∧ layer_key <$> hs = Some ∘ route_key <$> done
    ∧ Forall (λ l, ∃ route fn,
                route ∈ rs ∧ to_boolean fn = true
                ∧ l = app_verb (toLowerCase (method route))
                        (expressRoute route) fn) hs
    ∧ done `prefix_of` List.filter (handled options) rs
    ∧ (∀ tmp',
         (install_routes h require path_join options tmp rs w).2 = Ret tmp' →
         done = List.filter (handled options) rs).
Proof.
  induction rs as [|route rest IH]; intros tmp w.
  - exists [], []. cbn. by rewrite app_nil_r.
  - cbn [install_routes List.filter]. rewrite run_bind.
    destruct (install_route_by_handled tmp route w)
      as [[-> [[e ->] | ->]] | [-> (dir & oid & base & ->)]].
    + exists [], []. cbn. rewrite app_nil_r.
      split_and!; try done. apply prefix_nil.
    + destruct (IH tmp w)
        as (hs & done & Hl & Hkeys & Hfrom & Hprefix & Hall).
      exists hs, done. split_and!; try done.
      eapply Forall_impl; [exact Hfrom|].
      intros l (r & fn & Hr & Hfn & ->). exists r, fn.
      split_and!; try done. apply elem_of_cons. by right.
    + destruct (register_handler_layers tmp route dir oid base w)
        as [(e & Hout & Hlayers) | (fn & tmp' & Hout & Hfn & Hlayers)];
        destruct (register_handler _ _ _ _ _ _ _ _ _) as [w1 o];
        cbn [fst snd] in *; subst o.
      * exists [], []. cbn. rewrite app_nil_r.
        split_and!; try done. apply prefix_nil.
      * destruct (IH tmp' w1)
          as (hs & done & Hl & Hkeys & Htruthy & Hprefix & Hall).
        exists (app_verb (toLowerCase (method route)) (expressRoute route) fn
                :: hs), (route :: done).
        rewrite Hl, Hlayers, <- app_assoc. cbn [app fmap list_fmap].
        split_and!; try done.
        -- cbn. by rewrite Hkeys.
        -- constructor.
           ++ exists route, fn. split_and!; try done.
              apply elem_of_cons. by left.
           ++ eapply Forall_impl; [exact Htruthy|].
              intros l (r & fn' & Hr & Hfn' & ->). exists r, fn'.
              split_and!; try done. apply elem_of_cons. by right.
        -- by apply prefix_cons.
        -- intros tmp'' Hret. by rewrite (Hall _ Hret).
Qed.

(** X7: the handlers [installOperationHandlers] registers are those of the
    routes that have both an identifier and a handler reference, one each,
    under the route's lower-cased method and its path, in the order of the
    routes: all of them when it returns, and those before the failing route
    when it throws.  A registered handler is always a truthy value. *)
Theorem handlers_follow_the_routes ctx w :
  ∃ hs done,
    layers (installOperationHandlers h require path_join options ctx w).1
    = layers w ++ hs
    ∧ layer_key <$> hs = Some ∘ route_key <$> done
    ∧ Forall (λ l, ∀ verb path fn,
                l = app_verb verb path fn → to_boolean fn = true) hs
    ∧ done `prefix_of` List.filter (handled options) (routes ctx)
    ∧ ((installOperationHandlers h require path_join options ctx w).2 = Ret tt
       → done = List.filter (handled options) (routes ctx)).
Proof.
  destruct (install_routes_keys (routes ctx) ∅ w)
    as (hs & done & Hl & Hkeys & Htruthy & Hprefix & Hall).
  exists hs, done. rewrite installOperationHandlers_world.
  split_and!; try done.
  { eapply Forall_impl; [exact Htruthy|].
    by intros l (r & fn' & _ & Hfn' & ->) verb path fn [= _ _ <-]. }
  unfold installOperationHandlers. rewrite run_bind.
  destruct (install_routes _ _ _ _ _ _ _) as [w1 [tmp1|e]]; [|done].
  intros _. by eapply Hall.
Qed.

End RegisteredHandlers.

(** ** Failures while resolving a handler *)

Section HandlerFailures.

Variable h : Host.
Variable require : string → Outcome JsValue.
Variable path_join : string → string → string.
Variable options : OpenApiValidatorOpts.

(** X8: when a route is the first of the document to name its module, the
    path is not the name of something the memo inherits, and the module
    cannot be loaded, the error [require] threw is the error of the
    installation: [require] has been called on the path, the handlers of
    the routes before stay registered, and the routes after are not looked
    at. *)
Theorem module_load_failure_stops_the_installation
    ctx before route rest dir oid base e w w1 tmp1 :
  routes ctx = before ++ route :: rest →
  operationHandlers options = JStr dir →
  operation_id (schema route) = JStr oid → oid ≠ "" →
  schema_get (schema route) "x-eov-operation-handler" = JStr base →
  base ≠ "" →
  install_routes h require path_join options ∅ before w = (w1, Ret tmp1) →
  (∀ r, r ∈ before →
        module_path_of path_join options r ≠ Some (path_join dir base)) →
  to_boolean (inherited h (path_join dir base)) = false →
  require (path_join dir base) = Throw e →
  installOperationHandlers h require path_join options ctx w
  = (add_required w1 (path_join dir base), Throw e).
Proof.
  intros Hroutes Hdir Hoid Hne Hbase Hbne Hbefore Hfirst Hplain Hload.
  unfold installOperationHandlers.
  rewrite run_bind, Hroutes, install_routes_app, Hbefore.
  cbn [install_routes]. rewrite run_bind.
  rewrite (install_route_paired _ _ _ _ _ _ _ _ _ _ Hdir Hoid Hne Hbase Hbne).
  rewrite register_handler_fresh, Hload; [done|].
  by rewrite (first_reference_not_memoized _ _ _ _ _ _ _ _ _ Hbefore Hfirst).
Qed.

(** X9: when the identifier does not read as a truthy value in the
    namespace the handler is looked up in, be it the value the memo keeps
    for the path or the namespace kept for a module just loaded, the route
    is refused with the error of lines 274-276, whose message contains the
    identifier and the module path.  The reads are those of the code: they
    see what the namespace inherits. *)
Theorem missing_handler_error_names_both tmp route dir oid base w :
  operationHandlers options = JStr dir →
  operation_id (schema route) = JStr oid → oid ≠ "" →
  schema_get (schema route) "x-eov-operation-handler" = JStr base →
  base ≠ "" →
  (∃ found,
     to_boolean (obj_member h tmp (path_join dir base)) = true
     ∧ get_member h (obj_member h tmp (path_join dir base)) oid = Ret found
     ∧ to_boolean found = false)
  ∨ (∃ loaded namespace found,
       to_boolean (obj_member h tmp (path_join dir base)) = false
       ∧ require (path_join dir base) = Ret loaded
       ∧ namespace_of h loaded oid = Ret namespace
       ∧ get_member h namespace oid = Ret found
       ∧ to_boolean found = false) →
  ∃ w' err,
    install_route h require path_join options tmp route w = (w', Throw err)
    ∧ err = Error (could_not_find oid (path_join dir base))
    ∧ layers w' = layers w
    ∧ includes (message err) oid = true
    ∧ includes (message err) (path_join dir base) = true.
Proof.
  intros Hdir Hoid Hne Hbase Hbne Hcase.
  rewrite (install_route_paired _ _ _ _ _ _ _ _ _ _ Hdir Hoid Hne Hbase Hbne).
  destruct (could_not_find_names_both oid (path_join dir base)) as [Hi Hm].
  destruct Hcase as [(found & Hmemo & Hfound & Hmissing)
                    | (loaded & namespace & found & Hmemo & Hload & Hns
                       & Hfound & Hmissing)].
  - rewrite (missing_handler_in_namespace _ _ _ _ _ _ _ _ _ _
               Hmemo Hfound Hmissing).
    by eexists _, _.
  - rewrite (register_handler_fresh _ _ _ _ _ _ _ _ _ Hmemo),
      Hload, Hns, Hfound, Hmissing.
    by eexists _, _.
Qed.

Lemma not_handled_without_directory route :
  String.eqb (typeof (operationHandlers options)) "string" = false →
  handled options route = false.
Proof. intros Hty. unfold handled. rewrite Hty. apply andb_false_r. Qed.

Lemma install_routes_without_directory rs :
  String.eqb (typeof (operationHandlers options)) "string" = false →
  ∀ tmp w,
    (install_routes h require path_join options tmp rs w).1 = w
    ∧ ((∃ tmp', (install_routes h require path_join options tmp rs w).2
                = Ret tmp')
       ↔ Forall (λ route, mismatched route = false) rs).
Proof.
  intros Hty. induction rs as [|route rest IH]; intros tmp w.
  - cbn. split; [done|]. split; [by constructor|eauto].
  - cbn [install_routes]. rewrite run_bind.
    destruct (install_route_cases h require path_join options tmp route w)
      as [[Hmis [e ->]] | [[Hmis ->]
         | [_ (dir & oid & base & Hdir & _)]]].
    + cbn. split; [done|]. split.
      * by intros [tmp' [=]].
      * intros Hall. apply Forall_cons in Hall as [Hno _]. congruence.
    + destruct (IH tmp w) as [Hw Hiff]. split; [done|].
      rewrite Hiff, Forall_cons. split; [by split|by intros [_ ?]].
    + by rewrite Hdir in Hty.
Qed.

(** X10: when [operationHandlers] is not a string, [installOperationHandlers]
    loads no module and registers no handler: it leaves the world as it
    is.  It still checks the pairing of every route, and returns exactly
    when no route has an identifier without a handler reference or the
    reverse. *)
Theorem no_directory_no_handlers ctx w :
  String.eqb (typeof (operationHandlers options)) "string" = false →
  (installOperationHandlers h require path_join options ctx w).1 = w
  ∧ ((installOperationHandlers h require path_join options ctx w).2 = Ret tt
     ↔ Forall (λ route, mismatched route = false) (routes ctx)).
Proof.
  intros Hty.
  destruct (install_routes_without_directory (routes ctx) Hty ∅ w)
    as [Hw Hiff].
  rewrite installOperationHandlers_world. split; [done|].
  rewrite <- Hiff. unfold installOperationHandlers. rewrite run_bind.
  destruct (install_routes _ _ _ _ _ _ _) as [w1 [tmp1|e]]; cbn.
  - split; eauto.
  - split; [done|]. by intros [tmp' [=]].
Qed.

End HandlerFailures.

(** ** The path parameters *)

Lemma elem_of_uniq l x : x ∈ uniq l ↔ x ∈ l.
Proof.
  induction l as [|y l IH]; [done|].
  cbn [uniq]. rewrite !elem_of_cons, (list_elem_of_In _ x), filter_In.
  rewrite <- list_elem_of_In, IH.
  destruct (String.eqb_spec x y) as [->|Hne]; [by split; left|].
  cbn [negb]. split; [intros [?|[? _]]|intros [?|?]]; auto.
Qed.


Lemma elem_of_path_param_names ctx name :
  name ∈ uniq (flat_map
                 (λ route,
                    if 0 <? length (pathParams route) then pathParams route
                    else [])
                 (routes ctx))
  ↔ ∃ route, route ∈ routes ctx ∧ name ∈ pathParams route.
Proof.
  rewrite elem_of_uniq, list_elem_of_In, in_flat_map.
  split.
  - intros (route & Hroute & Hname). exists route.
    rewrite list_elem_of_In. split; [done|].
    destruct (0 <? length (pathParams route)); [by apply list_elem_of_In|].
    by destruct Hname.
  - intros (route & Hroute & Hname). exists route.
    rewrite <- list_elem_of_In. split; [done|].
    destruct (pathParams route) as [|p ps] eqn:Hps;
      [by apply not_elem_of_nil in Hname|].
    cbn [length Nat.ltb Nat.leb]. by apply list_elem_of_In.
Qed.


(** X12: the callback of [app.param] always goes on to [next].  With
    metadata carrying path parameters it sets the parameter it is called
    for to what [pathParams[name]] reads as when that is truthy, and to
    what [req.params[name]] read as otherwise; without, it changes
    nothing.  It never changes another parameter, and running it twice is
    running it once. *)
Theorem path_param_override_spec h openapi params name :
  name ≠ "__proto__" →
  ∃ params',
    path_param_override h openapi params name = Ret params'
    ∧ (to_boolean (opt_get openapi "pathParams") = false → params' = params)
    ∧ (∀ value,
         to_boolean (opt_get openapi "pathParams") = true →
         get_member h (opt_get openapi "pathParams") name = Ret value →
         obj_member h params' name
         = js_or value (obj_member h params name))
    ∧ (∀ other, other ≠ name → params' !! other = params !! other)
    ∧ path_param_override h openapi params' name = Ret params'.
Proof.
  intros _. unfold path_param_override.
  destruct (to_boolean (opt_get openapi "pathParams")) eqn:Hpp.
  - destruct (get_member h (opt_get openapi "pathParams") name)
      as [value|e] eqn:Hvalue;
      [|by destruct (opt_get openapi "pathParams")].
    eexists. split; [reflexivity|]. split_and!.
    + done.
    + intros value' _ [= <-]. apply obj_member_insert_eq.
    + intros other Hne. by rewrite lookup_insert_ne.
    + rewrite obj_member_insert_eq, insert_insert_eq.
      replace (js_or value (js_or value (obj_member h params name)))
        with (js_or value (obj_member h params name)); [done|].
      unfold js_or. by destruct (to_boolean value) eqn:Hv; rewrite ?Hv.
  - exists params. by split_and!.
Qed.

(** ** What the pipeline is made of *)

Lemma count_stage_app k l1 l2 :
  count_stage k (l1 ++ l2) = count_stage k l1 + count_stage k l2.
Proof. unfold count_stage. by rewrite List.filter_app, length_app. Qed.

Lemma count_stage_other k j ls :
  Forall (λ l, stage l = j) ls → j ≠ k → count_stage k ls = 0.
Proof.
  intros Hls Hne. unfold count_stage.
  induction Hls as [|l ls Hl _ IH]; [done|].
  cbn [List.filter]. rewrite Hl.
  by destruct (Nat.eqb_spec j k).
Qed.

Lemma count_stage_pipeline options ctx :
  count_stage 1 (pipeline_layers options ctx) = 1
  ∧ count_stage 2 (pipeline_layers options ctx)
    = b2n (to_boolean (fileUploader options))
  ∧ count_stage 3 (pipeline_layers options ctx)
    = b2n (to_boolean (validateSecurity options)
           && to_boolean (opt_get (obj_get (apiDoc ctx) "components")
                            "securitySchemes"))
  ∧ count_stage 4 (pipeline_layers options ctx)
    = b2n (to_boolean (validateRequests options))
  ∧ count_stage 5 (pipeline_layers options ctx)
    = b2n (to_boolean (validateResponses options))
  ∧ count_stage 6 (pipeline_layers options ctx) = 0.
Proof.
  unfold pipeline_layers.
  set (names := uniq _).
  assert (Hparams : Forall (λ l, stage l = 0) (app_param <$> names))
    by (by apply Forall_fmap, Forall_true).
  repeat setoid_rewrite count_stage_app.
  rewrite !(count_stage_other _ 0 _ Hparams) by done.
  destruct (to_boolean (fileUploader options)),
    (to_boolean (validateSecurity options)
     && to_boolean (opt_get (obj_get (apiDoc ctx) "components")
                      "securitySchemes")),
    (to_boolean (validateRequests options)),
    (to_boolean (validateResponses options)); by cbn.
Qed.

Lemma pipeline_layers_built_from options ctx :
  Forall (built_from options ctx) (pipeline_layers options ctx).
Proof.
  unfold pipeline_layers. rewrite !Forall_app. split_and!.
  - apply Forall_fmap, Forall_forall. intros name Hname.
    by apply elem_of_path_param_names.
  - by repeat constructor.
  - destruct (to_boolean (fileUploader options)); by repeat constructor.
  - destruct (_ && _); by repeat constructor.
  - destruct (to_boolean (validateRequests options)); by repeat constructor.
  - destruct (to_boolean (validateResponses options)); by repeat constructor.
Qed.

Section Pipeline.

Variable Spec : Type.
Variable new_OpenApiContext : Spec → JsValue → OpenApiContext.
Variable h : Host.
Variable require : string → Outcome JsValue.
Variable path_join : string → string → string.

(** X13: each stage middleware is registered at most once, and exactly
    when its switch is truthy: the metadata middleware always, multipart
    for [fileUploader], security for [validateSecurity] and a document
    with [components.securitySchemes], the request validator for
    [validateRequests], the response validator for [validateResponses]. *)
Theorem stage_switches options spec w :
  ∃ added,
    layers (installMiddleware Spec new_OpenApiContext h require path_join
              options spec w).1
    = layers w ++ added
    ∧ count_stage 1 added = 1
    ∧ count_stage 2 added = b2n (to_boolean (fileUploader options))
    ∧ count_stage 3 added
      = b2n (to_boolean (validateSecurity options)
             && to_boolean
                  (opt_get (obj_get (apiDoc (new_OpenApiContext spec
                                               (ignorePaths options)))
                              "components") "securitySchemes"))
    ∧ count_stage 4 added = b2n (to_boolean (validateRequests options))
    ∧ count_stage 5 added = b2n (to_boolean (validateResponses options)).
Proof.
  unfold installMiddleware.
  set (ctx := new_OpenApiContext spec (ignorePaths options)).
  destruct (installMiddleware_in_layers h require path_join options ctx w)
    as (hs & -> & Hhs).
  exists (pipeline_layers options ctx ++ hs). split; [done|].
  rewrite !count_stage_app, !(count_stage_other _ 6 hs Hhs) by done.
  rewrite !Nat.add_0_r.
  by destruct (count_stage_pipeline options ctx) as (? & ? & ? & ? & ? & _).
Qed.

(** X14: every registration of an installation is built from the context
    of this installation and the options of this validator: the
    middlewares get that context or its document, multipart gets
    [fileUploader], security gets [validateSecurity.handlers], the
    validators get the object literals of lines 198-206 and 227-233 with
    the flag read from [validateRequests] and [validateResponses], each
    [app.param] is for a path parameter of a route, and each handler is a
    truthy value registered under the verb and path of a route. *)
Theorem registrations_built_from_options options spec w :
  ∃ added,
    layers (installMiddleware Spec new_OpenApiContext h require path_join
              options spec w).1
    = layers w ++ added
    ∧ Forall (built_from options
                (new_OpenApiContext spec (ignorePaths options))) added.
Proof.
  unfold installMiddleware.
  set (ctx := new_OpenApiContext spec (ignorePaths options)).
  rewrite installMiddleware_in_run.
  destruct (to_boolean (operationHandlers options)); unfold when.
  - destruct (install_routes_keys h require path_join options (routes ctx) ∅
                (add_layers w (pipeline_layers options ctx)))
      as (hs & done & Hl & _ & Hfrom & _).
    rewrite installOperationHandlers_world, Hl.
    exists (pipeline_layers options ctx ++ hs).
    split; [cbn; by rewrite app_assoc|].
    apply Forall_app. split; [apply pipeline_layers_built_from|].
    eapply Forall_impl; [exact Hfrom|].
    intros l (route & fn & Hroute & Hfn & ->). cbn. eauto.
  - rewrite run_ret. exists (pipeline_layers options ctx).
    split; [done|]. apply pipeline_layers_built_from.
Qed.

End Pipeline.

(** ** From the options given to the middlewares installed *)

Lemma constructed_switches o :
  let o' := applyDefaults (normalizeOptions o) in
  to_boolean (fileUploader o')
  = to_boolean (multerOpts o) || is_nullish (fileUploader o)
    || to_boolean (fileUploader o)
  ∧ to_boolean (validateSecurity o')
    = to_boolean (securityHandlers o) || is_nullish (validateSecurity o)
      || to_boolean (validateSecurity o)
  ∧ to_boolean (validateRequests o')
    = is_nullish (validateRequests o) || to_boolean (validateRequests o)
  ∧ to_boolean (validateResponses o') = to_boolean (validateResponses o)
  ∧ to_boolean (operationHandlers o') = to_boolean (operationHandlers o)
  ∧ ignorePaths o' = ignorePaths o.
Proof.
  cbv zeta. rewrite applyDefaults_eq, normalizeOptions_eq. opts_simpl.
  unfold expanded, defaulted. split_and!; try done.
  - destruct (to_boolean (multerOpts o)) eqn:Hmo.
    + by destruct (multerOpts o).
    + by destruct (fileUploader o).
  - destruct (to_boolean (securityHandlers o)); [done|].
    by destruct (validateSecurity o) as [| |[]| | | | |].
  - by destruct (validateRequests o) as [| |[]| | | | |].
  - by destruct (validateResponses o) as [| |[]| | | | |].
  - by destruct (operationHandlers o).
Qed.

Lemma elem_of_pipeline_layers options ctx :
  app_use (applyOpenApiMetadata ctx) ∈ pipeline_layers options ctx
  ∧ (to_boolean (fileUploader options) = true →
     app_use (multipart ctx (fileUploader options))
       ∈ pipeline_layers options ctx)
  ∧ (to_boolean (validateSecurity options)
     && to_boolean (opt_get (obj_get (apiDoc ctx) "components")
                      "securitySchemes") = true →
     app_use (security ctx (opt_get (validateSecurity options) "handlers"))
       ∈ pipeline_layers options ctx)
  ∧ (to_boolean (validateRequests options) = true →
     app_use (RequestValidator (apiDoc ctx)
                (request_validator_options options
                   (opt_get (validateRequests options)
                      "allowUnknownQueryParameters")))
       ∈ pipeline_layers options ctx)
  ∧ (to_boolean (validateResponses options) = true →
     app_use (ResponseValidator (apiDoc ctx)
                (response_validator_options options
                   (opt_get (validateResponses options) "removeAdditional")))
       ∈ pipeline_layers options ctx).
Proof.
  unfold pipeline_layers. split_and!.
  - rewrite !elem_of_app, list_elem_of_singleton. auto.
  - intros ->. rewrite !elem_of_app, !list_elem_of_singleton. auto.
  - intros ->. rewrite !elem_of_app, !list_elem_of_singleton. auto 6.
  - intros ->. rewrite !elem_of_app, !list_elem_of_singleton. auto 7.
  - intros ->. rewrite !elem_of_app, !list_elem_of_singleton. auto 8.
Qed.

Section EndToEnd.

Variable Spec : Type.
Variable new_OpenApiContext : Spec → JsValue → OpenApiContext.
Variable h : Host.
Variable require : string → Outcome JsValue.
Variable path_join : string → string → string.

(** The registrations of an installation and their counts by stage. *)
Lemma installed_counts options spec w :
  ∃ added,
    layers (installMiddleware Spec new_OpenApiContext h require path_join
              options spec w).1
    = layers w ++ added
    ∧ (∀ l, l ∈ pipeline_layers options
                  (new_OpenApiContext spec (ignorePaths options)) →
            l ∈ added)
    ∧ (∀ k, k ≠ 6 →
            count_stage k added
            = count_stage k
                (pipeline_layers options
                   (new_OpenApiContext spec (ignorePaths options))))
    ∧ (to_boolean (operationHandlers options) = false →
       count_stage 6 added = 0).
Proof.
  unfold installMiddleware.
  set (ctx := new_OpenApiContext spec (ignorePaths options)).
  rewrite installMiddleware_in_run.
  destruct (to_boolean (operationHandlers options)); unfold when.
  - destruct (installOperationHandlers_layers h require path_join options ctx
                (add_layers w (pipeline_layers options ctx)))
      as (hs & -> & Hhs).
    exists (pipeline_layers options ctx ++ hs).
    split_and!; [cbn; by rewrite app_assoc| | |done].
    + intros l Hl. apply elem_of_app. by left.
    + intros k Hk. rewrite count_stage_app.
      rewrite (count_stage_other k 6 hs Hhs) by done. lia.
  - rewrite run_ret. exists (pipeline_layers options ctx).
    split_and!; try done. intros _.
    by destruct (count_stage_pipeline options ctx) as (_ & _ & _ & _ & _ & ?).
Qed.

(** X15: what an installation registers, told from the options as the
    caller gave them.  Multipart, security (when the document declares
    security schemes) and request validation are registered unless their
    option is given a falsy value other than [null] and [undefined];
    response validation only when [validateResponses] is truthy; and when
    [operationHandlers] is omitted or falsy no handler is registered. *)
Theorem default_switches o w0 w1 o' :
  constructor o w0 = (w1, Ret o') →
  ∀ spec w,
    ∃ added,
      layers (installMiddleware Spec new_OpenApiContext h require path_join
                o' spec w).1
      = layers w ++ added
      ∧ count_stage 2 added
        = b2n (to_boolean (multerOpts o) || is_nullish (fileUploader o)
               || to_boolean (fileUploader o))
      ∧ count_stage 3 added
        = b2n ((to_boolean (securityHandlers o)
                || is_nullish (validateSecurity o)
                || to_boolean (validateSecurity o))
               && to_boolean
                    (opt_get (obj_get (apiDoc (new_OpenApiContext spec
                                                 (ignorePaths o)))
                                "components") "securitySchemes"))
      ∧ count_stage 4 added
        = b2n (is_nullish (validateRequests o)
               || to_boolean (validateRequests o))
      ∧ count_stage 5 added = b2n (to_boolean (validateResponses o))
      ∧ (to_boolean (operationHandlers o) = false → count_stage 6 added = 0).
Proof.
  intros (_ & _ & ->)%constructor_returns_accepted spec w.
  destruct (constructed_switches o) as (Hfu & Hvs & Hvr & Hvresp & Hoh & Hip).
  set (o' := applyDefaults (normalizeOptions o)) in *.
  destruct (installed_counts o' spec w) as (added & Hl & _ & Hcount & Hnone).
  exists added. split; [done|].
  rewrite !Hcount by done. rewrite Hoh in Hnone.
  destruct (count_stage_pipeline o' (new_OpenApiContext spec (ignorePaths o')))
    as (_ & -> & -> & -> & -> & _).
  by rewrite Hfu, Hvs, Hvr, Hvresp, Hip.
Qed.

(** X16: handlers given through the legacy [securityHandlers] option reach
    the security middleware: the constructor moves them to
    [validateSecurity.handlers] and deletes [securityHandlers], and an
    installation over a document with security schemes registers one
    security middleware, built with those handlers. *)
Theorem legacy_security_handlers_are_used o w0 w1 o' :
  constructor o w0 = (w1, Ret o') →
  to_boolean (securityHandlers o) = true →
  validateSecurity o' = JObj {[ "handlers" := securityHandlers o ]}
  ∧ securityHandlers o' = JUndefined
  ∧ ∀ spec w,
      to_boolean
        (opt_get (obj_get (apiDoc (new_OpenApiContext spec (ignorePaths o')))
                    "components") "securitySchemes") = true →
      ∃ added,
        layers (installMiddleware Spec new_OpenApiContext h require path_join
                  o' spec w).1
        = layers w ++ added
        ∧ app_use (security (new_OpenApiContext spec (ignorePaths o'))
                     (securityHandlers o)) ∈ added
        ∧ count_stage 3 added = 1.
Proof.
  intros (_ & _ & ->)%constructor_returns_accepted Hsh.
  set (o' := applyDefaults (normalizeOptions o)).
  assert (Hvs : validateSecurity o'
                = JObj {[ "handlers" := securityHandlers o ]}).
  { unfold o'. rewrite applyDefaults_eq, normalizeOptions_eq. opts_simpl.
    by rewrite Hsh. }
  split; [done|]. split.
  { unfold o'. rewrite applyDefaults_eq, normalizeOptions_eq. opts_simpl.
    by rewrite Hsh. }
  intros spec w Hschemes.
  destruct (installed_counts o' spec w) as (added & Hl & Hin & Hcount & _).
  exists added. split; [done|].
  set (ctx := new_OpenApiContext spec (ignorePaths o')) in *.
  destruct (elem_of_pipeline_layers o' ctx) as (_ & _ & Hsec & _).
  destruct (count_stage_pipeline o' ctx) as (_ & _ & H3 & _).
  rewrite Hvs, Hschemes in Hsec, H3.
  split; [|by rewrite Hcount]. apply Hin.
  replace (securityHandlers o)
    with (opt_get (JObj {[ "handlers" := securityHandlers o ]}) "handlers")
    by (unfold opt_get, obj_get; by rewrite lookup_singleton_eq).
  by apply Hsec.
Qed.

(** X17: upload options given through the legacy [multerOpts] option reach
    the multipart middleware: the constructor moves them to [fileUploader]
    and deletes [multerOpts], and every installation registers one
    multipart middleware, built with them. *)
Theorem legacy_multer_options_are_used o w0 w1 o' :
  constructor o w0 = (w1, Ret o') →
  to_boolean (multerOpts o) = true →
  fileUploader o' = multerOpts o
  ∧ multerOpts o' = JUndefined
  ∧ ∀ spec w,
      ∃ added,
        layers (installMiddleware Spec new_OpenApiContext h require path_join
                  o' spec w).1
        = layers w ++ added
        ∧ app_use (multipart (new_OpenApiContext spec (ignorePaths o'))
                     (multerOpts o)) ∈ added
        ∧ count_stage 2 added = 1.
Proof.
  intros (_ & _ & ->)%constructor_returns_accepted Hmo.
  set (o' := applyDefaults (normalizeOptions o)).
  assert (Hfu : fileUploader o' = multerOpts o).
  { unfold o'. rewrite applyDefaults_eq, normalizeOptions_eq. opts_simpl.
    rewrite Hmo. apply defaulted_id. by destruct (multerOpts o). }
  split; [done|]. split.
  { unfold o'. rewrite applyDefaults_eq, normalizeOptions_eq. opts_simpl.
    by rewrite Hmo. }
  intros spec w.
  destruct (installed_counts o' spec w) as (added & Hl & Hin & Hcount & _).
  exists added. split; [done|].
  set (ctx := new_OpenApiContext spec (ignorePaths o')) in *.
  destruct (elem_of_pipeline_layers o' ctx) as (_ & Hmulti & _).
  destruct (count_stage_pipeline o' ctx) as (_ & H2 & _).
  rewrite Hfu in Hmulti, H2. rewrite Hmo in H2.
  split; [|by rewrite Hcount]. by apply Hin, Hmulti.
Qed.

(** X18: when [validateResponses] is the boolean [true], the constructor
    turns it into [{ removeAdditional: false }], and an installation
    registers one response validator, built with [removeAdditional]
    false. *)
Theorem response_validation_keeps_additional_by_default o w0 w1 o' :
  constructor o w0 = (w1, Ret o') →
  is_true (validateResponses o) = true →
  validateResponses o' = JObj {[ "removeAdditional" := JBool false ]}
  ∧ ∀ spec w,
      ∃ added ropts,
        layers (installMiddleware Spec new_OpenApiContext h require path_join
                  o' spec w).1
        = layers w ++ added
        ∧ app_use (ResponseValidator
                     (apiDoc (new_OpenApiContext spec (ignorePaths o')))
                     ropts) ∈ added
        ∧ opt_get ropts "removeAdditional" = JBool false
        ∧ count_stage 5 added = 1.
Proof.
  intros (_ & _ & ->)%constructor_returns_accepted Htrue.
  set (o' := applyDefaults (normalizeOptions o)).
  assert (Hvr : validateResponses o'
                = JObj {[ "removeAdditional" := JBool false ]}).
  { unfold o'. rewrite applyDefaults_eq, normalizeOptions_eq. opts_simpl.
    by destruct (validateResponses o) as [| |[]| | | | |]. }
  split; [done|]. intros spec w.
  destruct (installed_counts o' spec w) as (added & Hl & Hin & Hcount & _).
  set (ctx := new_OpenApiContext spec (ignorePaths o')) in *.
  destruct (elem_of_pipeline_layers o' ctx) as (_ & _ & _ & _ & Hresp).
  destruct (count_stage_pipeline o' ctx) as (_ & _ & _ & _ & H5 & _).
  rewrite Hvr in Hresp, H5.
  exists added, (response_validator_options o' (JBool false)).
  split_and!; [done| |by vm_compute|by rewrite Hcount].
  by apply Hin, Hresp.
Qed.

End EndToEnd.

(** ** The validators' options, and installations without handlers *)

Lemma request_validator_options_entries options allow :
  opt_get (request_validator_options options allow) "nullable" = JBool true
  ∧ opt_get (request_validator_options options allow) "coerceTypes"
    = coerceTypes options
  ∧ opt_get (request_validator_options options allow) "removeAdditional"
    = JBool false
  ∧ opt_get (request_validator_options options allow) "useDefaults"
    = JBool true
  ∧ opt_get (request_validator_options options allow) "unknownFormats"
    = unknownFormats options
  ∧ opt_get (request_validator_options options allow)
      "allowUnknownQueryParameters" = allow
  ∧ opt_get (request_validator_options options allow) "format"
    = validateFormats options.
Proof. split_and!; by vm_compute. Qed.

Lemma response_validator_options_entries options remove :
  opt_get (response_validator_options options remove) "nullable"
  = JBool true
  ∧ opt_get (response_validator_options options remove) "coerceTypes"
    = coerceTypes options
  ∧ opt_get (response_validator_options options remove) "removeAdditional"
    = remove
  ∧ opt_get (response_validator_options options remove) "unknownFormats"
    = unknownFormats options
  ∧ opt_get (response_validator_options options remove) "format"
    = validateFormats options.
Proof. split_and!; by vm_compute. Qed.

Lemma pipeline_layers_below_handlers options ctx :
  Forall (λ l, stage l < 6) (pipeline_layers options ctx).
Proof.
  destruct (pipeline_layers_shape options ctx)
    as (params & opts & -> & Hparams & Hopts & _).
  apply Forall_app. split.
  - eapply Forall_impl; [exact Hparams|]. cbn. lia.
  - constructor; [cbn; lia|].
    eapply Forall_impl; [exact Hopts|]. cbn. lia.
Qed.

Section Validators.

Variable Spec : Type.
Variable new_OpenApiContext : Spec → JsValue → OpenApiContext.
Variable h : Host.
Variable require : string → Outcome JsValue.
Variable path_join : string → string → string.

(** X19: the validators are built from the options as the constructor
    leaves them.  Every request validator and every response validator an
    installation registers gets [nullable] true, [coerceTypes] as given or
    [true] when omitted, [format] as [validateFormats] was given or
    ['fast'] when omitted, and [unknownFormats] exactly as the caller gave
    it, [undefined] when omitted; a request validator also gets
    [removeAdditional] false and [useDefaults] true. *)
Theorem validators_get_the_defaulted_options o w0 w1 o' :
  constructor o w0 = (w1, Ret o') →
  ∀ spec w,
    ∃ added,
      layers (installMiddleware Spec new_OpenApiContext h require path_join
                o' spec w).1
      = layers w ++ added
      ∧ (∀ doc ropts,
           app_use (RequestValidator doc ropts) ∈ added
           ∨ app_use (ResponseValidator doc ropts) ∈ added →
           doc = apiDoc (new_OpenApiContext spec (ignorePaths o))
           ∧ opt_get ropts "nullable" = JBool true
           ∧ opt_get ropts "coerceTypes"
             = defaulted (JBool true) (coerceTypes o)
           ∧ opt_get ropts "format"
             = defaulted (JStr "fast") (validateFormats o)
           ∧ opt_get ropts "unknownFormats" = unknownFormats o)
      ∧ (∀ doc ropts,
           app_use (RequestValidator doc ropts) ∈ added →
           opt_get ropts "removeAdditional" = JBool false
           ∧ opt_get ropts "useDefaults" = JBool true).
Proof.
  intros (_ & _ & ->)%constructor_returns_accepted spec w.
  set (o' := applyDefaults (normalizeOptions o)).
  assert (Hfields : coerceTypes o' = defaulted (JBool true) (coerceTypes o)
                    ∧ validateFormats o'
                      = defaulted (JStr "fast") (validateFormats o)
                    ∧ unknownFormats o' = unknownFormats o
                    ∧ ignorePaths o' = ignorePaths o).
  { unfold o'. rewrite applyDefaults_eq, normalizeOptions_eq. opts_simpl.
    by split_and!. }
  destruct Hfields as (Hct & Hvf & Huf & Hip).
  unfold installMiddleware. rewrite Hip.
  set (ctx := new_OpenApiContext spec (ignorePaths o)).
  destruct (installMiddleware_in_layers h require path_join o' ctx w)
    as (hs & -> & Hhs).
  exists (pipeline_layers o' ctx ++ hs). split; [done|].
  pose proof (pipeline_layers_built_from o' ctx) as Hbuilt.
  rewrite Forall_forall in Hbuilt, Hhs.
  assert (Hfrom : ∀ l, l ∈ pipeline_layers o' ctx ++ hs → stage l ≠ 6 →
                       built_from o' ctx l).
  { intros l [Hl|Hl]%elem_of_app Hstage; [by apply Hbuilt|].
    by apply Hhs in Hl. }
  split.
  - intros doc ropts [Hin|Hin].
    + apply Hfrom in Hin as [-> ->]; [|cbn; lia].
      destruct (request_validator_options_entries o'
                  (opt_get (validateRequests o')
                     "allowUnknownQueryParameters"))
        as (-> & -> & _ & _ & -> & _ & ->).
      rewrite Hct, Hvf, Huf. by split_and!.
    + apply Hfrom in Hin as [-> ->]; [|cbn; lia].
      destruct (response_validator_options_entries o'
                  (opt_get (validateResponses o') "removeAdditional"))
        as (-> & -> & _ & -> & ->).
      rewrite Hct, Hvf, Huf. by split_and!.
  - intros doc ropts Hin. apply Hfrom in Hin as [-> ->]; [|cbn; lia].
    destruct (request_validator_options_entries o'
                (opt_get (validateRequests o')
                   "allowUnknownQueryParameters"))
      as (_ & _ & -> & -> & _).
    by split.
Qed.

(** X20: when [operationHandlers] is omitted or falsy, an installation
    does not enter [installOperationHandlers]: whatever its outcome, it
    has called [require] on nothing, printed nothing and registered
    registrations of the pipeline only, no route handler. *)
Theorem without_operation_handlers_no_module_is_loaded o w0 w1 o' :
  constructor o w0 = (w1, Ret o') →
  to_boolean (operationHandlers o) = false →
  ∀ spec w,
    ∃ added,
      (installMiddleware Spec new_OpenApiContext h require path_join o'
         spec w).1
      = {| layers := layers w ++ added; required := required w;
           warnings := warnings w |}
      ∧ Forall (λ l, stage l < 6) added.
Proof.
  intros (_ & _ & ->)%constructor_returns_accepted Hoff spec w.
  destruct (constructed_switches o) as (_ & _ & _ & _ & Hoh & _).
  unfold installMiddleware.
  rewrite installMiddleware_in_run, Hoh, Hoff. unfold when.
  rewrite run_ret. eexists. split; [reflexivity|].
  apply pipeline_layers_below_handlers.
Qed.

End Validators.

(** ** [install] and [installSync] *)

Section InstallFacts.

Variable Spec : Type.
Variable new_OpenApiContext : Spec → JsValue → OpenApiContext.
Variable h : Host.
Variable require : string → Outcome JsValue.
Variable path_join : string → string → string.
Variable options : OpenApiValidatorOpts.
Variable loadSync : JsValue → Outcome Spec.
Variable load : JsValue → JsValue → Outcome Spec.

Lemma installSync_loader_failure e w :
  loadSync (apiSpec options) = Throw e →
  installSync Spec new_OpenApiContext h require path_join options loadSync w
  = (w, Throw e).
Proof. intros Hload. unfold installSync. by rewrite run_bind, Hload. Qed.

(** X21: [install] with a function for callback hands back nothing and
    calls the callback only to report a failure: once, with the error,
    when the document cannot be loaded (and then nothing is registered) or
    when [installMiddleware] throws; never when the installation
    succeeds.  With anything else for callback it hands back the promise,
    which settles to the outcome of the installation. *)
Theorem install_calls_back_on_failure_only callback w :
  (typeof callback = "function" →
   ∃ w' calls,
     install Spec new_OpenApiContext h require path_join options load
       callback w = (w', returns_undefined calls)
     ∧ (∀ e, load (apiSpec options) (refParser options) = Throw e →
             w' = w ∧ calls = [e])
     ∧ (∀ spec, load (apiSpec options) (refParser options) = Ret spec →
          w' = (installMiddleware Spec new_OpenApiContext h require path_join
                  options spec w).1
          ∧ match (installMiddleware Spec new_OpenApiContext h require
                     path_join options spec w).2 with
            | Ret _ => calls = []
            | Throw e => calls = [e]
            end))
  ∧ (typeof callback ≠ "function" →
     ∃ w' settled,
       install Spec new_OpenApiContext h require path_join options load
         callback w = (w', returns_promise settled)
       ∧ install_promise Spec new_OpenApiContext h require path_join options
           load w = (w', settled)).
Proof.
  unfold install, install_promise. rewrite run_bind. unfold lift.
  split.
  - intros Hfun.
    assert (Huse : to_boolean callback
                   && String.eqb (typeof callback) "function" = true).
    { by destruct callback. }
    destruct (load (apiSpec options) (refParser options)) as [spec|e].
    + destruct (installMiddleware _ _ _ _ _ _ _ _) as [w' [[]|e]] eqn:Hrun;
        rewrite Huse; eexists _, _; (split; [reflexivity|]);
        (split; [done|]); intros spec' [= <-]; by rewrite Hrun.
    + rewrite Huse. eexists _, _. split; [reflexivity|].
      split; [by intros e' [= <-]|done].
  - intros Hnot.
    assert (Huse : to_boolean callback
                   && String.eqb (typeof callback) "function" = false).
    { destruct callback; cbn [typeof to_boolean andb] in *;
        rewrite ?andb_false_r; try done. }
    destruct (load (apiSpec options) (refParser options)) as [spec|e].
    + destruct (installMiddleware _ _ _ _ _ _ _ _) as [w' p].
      rewrite Huse. by eexists _, _.
    + rewrite Huse. by eexists _, _.
Qed.

End InstallFacts.

(** ** The further theorems at sample inputs *)

Lemma apiSpec_is_required_witness :
  constructor Cases.without_spec Sample.empty_world
  = (Sample.empty_world, Throw (Error "apiSpec required")).
Proof. apply (apiSpec_is_required Cases.without_spec). reflexivity. Defined.

Lemma constructor_prints_legacy_warnings_witness :
  warnings (add_warnings Sample.empty_world (legacy_warnings Cases.legacy))
  = warnings Sample.empty_world ++ legacy_warnings Cases.legacy
  ∧ layers (add_warnings Sample.empty_world (legacy_warnings Cases.legacy))
    = layers Sample.empty_world
  ∧ required (add_warnings Sample.empty_world (legacy_warnings Cases.legacy))
    = required Sample.empty_world.
Proof.
  apply (constructor_prints_legacy_warnings Cases.legacy Sample.empty_world
           _ (Cases.kept Cases.legacy)).
  vm_compute. reflexivity.
Defined.

Lemma constructed_options_are_normalized_witness :
  options_normalized (Cases.kept Cases.legacy) = true.
Proof.
  apply (constructed_options_are_normalized Cases.legacy Sample.empty_world
           (add_warnings Sample.empty_world (legacy_warnings Cases.legacy))).
  vm_compute. reflexivity.
Defined.

Lemma constructor_is_idempotent_witness :
  constructor (Cases.kept Cases.legacy) Sample.empty_world
  = (Sample.empty_world, Ret (Cases.kept Cases.legacy)).
Proof.
  apply (constructor_is_idempotent Cases.legacy Sample.empty_world
           (add_warnings Sample.empty_world (legacy_warnings Cases.legacy))).
  vm_compute. reflexivity.
Defined.

Lemma explicit_options_are_kept_witness :
  coerceTypes (Cases.kept Cases.validated_responses) = JBool false.
Proof.
  destruct (explicit_options_are_kept Cases.validated_responses
              Sample.empty_world Sample.empty_world
              (Cases.kept Cases.validated_responses))
    as (_ & _ & _ & Hkept & _).
  - vm_compute. reflexivity.
  - apply Hkept. reflexivity.
Defined.

(** [handlers/ping] loads and [handlers/missing] does not: the handler of
    [ping] stays registered, and the route after the failing one is not
    looked at. *)
Lemma module_load_failure_stops_the_installation_witness :
  installOperationHandlers Sample.host Sample.modules Sample.join
    Sample.handler_options
    (Sample.context [Sample.ping; Cases.orphan; Sample.users_a])
    Sample.empty_world
  = (add_required
       {| layers := [app_verb "get" "/ping" (JFun "ping")];
          required := ["handlers/ping"]; warnings := [] |}
       (Sample.join "handlers" "missing"),
     Throw (Error "Cannot find module 'handlers/missing'")).
Proof.
  refine (module_load_failure_stops_the_installation Sample.host
            Sample.modules Sample.join Sample.handler_options
            (Sample.context [Sample.ping; Cases.orphan; Sample.users_a])
            [Sample.ping] Cases.orphan [Sample.users_a]
            "handlers" "orphan" "missing"
            (Error "Cannot find module 'handlers/missing'")
            Sample.empty_world
            {| layers := [app_verb "get" "/ping" (JFun "ping")];
               required := ["handlers/ping"]; warnings := [] |}
            {[ "handlers/ping" := JObj {[ "ping" := JFun "ping" ]} ]}
            eq_refl _ _ _ _ _ _ _ _ _).
  - vm_compute. reflexivity.
  - vm_compute. reflexivity.
  - discriminate.
  - vm_compute. reflexivity.
  - discriminate.
  - vm_compute. reflexivity.
  - intros r Hr. apply list_elem_of_singleton in Hr. rewrite Hr.
    vm_compute. discriminate.
  - vm_compute. reflexivity.
  - vm_compute. reflexivity.
Defined.

(** [handlers/users] has no [c], of its own, inherited or under its
    default export. *)
Lemma missing_handler_error_names_both_witness :
  ∃ w' err,
    install_route Sample.host Sample.modules Sample.join
      Sample.handler_options ∅ Cases.users_c Sample.empty_world
    = (w', Throw err)
    ∧ err = Error (could_not_find "c" (Sample.join "handlers" "users"))
    ∧ layers w' = layers Sample.empty_world
    ∧ includes (message err) "c" = true
    ∧ includes (message err) (Sample.join "handlers" "users") = true.
Proof.
  apply (missing_handler_error_names_both Sample.host Sample.modules
           Sample.join Sample.handler_options ∅ Cases.users_c
           "handlers" "c" "users");
    try (vm_compute; reflexivity); try discriminate.
  right.
  exists (JObj {[ "b" := JFun "top_b";
                  "default" := JObj {[ "a" := JFun "default_a";
                                       "b" := JFun "default_b" ]} ]}),
    (JObj {[ "a" := JFun "default_a"; "b" := JFun "default_b" ]}),
    JUndefined.
  split_and!; vm_compute; reflexivity.
Defined.

Lemma no_directory_no_handlers_witness :
  (installOperationHandlers Sample.host Sample.modules Sample.join
      Cases.handlers_flag
     (Sample.context [Sample.ping; Sample.unpaired]) Sample.empty_world).1
  = Sample.empty_world
  ∧ ((installOperationHandlers Sample.host Sample.modules Sample.join
      Cases.handlers_flag
        (Sample.context [Sample.ping; Sample.unpaired])
        Sample.empty_world).2 = Ret tt
     ↔ Forall (λ route, mismatched route = false)
         (routes (Sample.context [Sample.ping; Sample.unpaired]))).
Proof.
  apply (no_directory_no_handlers Sample.host Sample.modules Sample.join
           Cases.handlers_flag).
  vm_compute. reflexivity.
Defined.

Lemma default_switches_witness :
  ∃ added,
    layers (installMiddleware (list RouteMetadata) Cases.secured_context
              Sample.host Sample.modules Sample.join (Cases.kept Sample.options)
              [Sample.ping] Sample.empty_world).1
    = layers Sample.empty_world ++ added
    ∧ count_stage 2 added = 1
    ∧ count_stage 3 added = 1
    ∧ count_stage 4 added = 1
    ∧ count_stage 5 added = 0
    ∧ (to_boolean (operationHandlers Sample.options) = false →
       count_stage 6 added = 0).
Proof.
  exact (default_switches (list RouteMetadata) Cases.secured_context
           Sample.host Sample.modules Sample.join
           Sample.options Sample.empty_world
           Sample.empty_world (Cases.kept Sample.options) eq_refl
           [Sample.ping] Sample.empty_world).
Defined.

Lemma legacy_security_handlers_are_used_witness :
  validateSecurity (Cases.kept Cases.legacy)
  = JObj {[ "handlers" := JObj {[ "ApiKey" := JFun "checkKey" ]} ]}
  ∧ securityHandlers (Cases.kept Cases.legacy) = JUndefined
  ∧ ∃ added,
      layers (installMiddleware (list RouteMetadata) Cases.secured_context
                Sample.host Sample.modules Sample.join (Cases.kept Cases.legacy)
                [Sample.ping] Sample.empty_world).1
      = layers Sample.empty_world ++ added
      ∧ app_use (security
                   (Cases.secured_context [Sample.ping]
                      (ignorePaths (Cases.kept Cases.legacy)))
                   (JObj {[ "ApiKey" := JFun "checkKey" ]})) ∈ added
      ∧ count_stage 3 added = 1.
Proof.
  destruct (legacy_security_handlers_are_used (list RouteMetadata)
              Cases.secured_context Sample.host Sample.modules Sample.join
                  Cases.legacy
              Sample.empty_world
              (add_warnings Sample.empty_world
                 (legacy_warnings Cases.legacy))
              (Cases.kept Cases.legacy))
    as (Hvs & Hsh & Hinstall).
  - vm_compute. reflexivity.
  - reflexivity.
  - split; [exact Hvs|]. split; [exact Hsh|].
    apply (Hinstall [Sample.ping] Sample.empty_world). reflexivity.
Defined.

Lemma legacy_multer_options_are_used_witness :
  fileUploader (Cases.kept Cases.legacy)
  = JObj {[ "dest" := JStr "uploads" ]}
  ∧ multerOpts (Cases.kept Cases.legacy) = JUndefined
  ∧ ∀ spec w,
      ∃ added,
        layers (installMiddleware (list RouteMetadata) Sample.new_context
                  Sample.host Sample.modules Sample.join
                  (Cases.kept Cases.legacy)
                  spec w).1
        = layers w ++ added
        ∧ app_use (multipart
                     (Sample.new_context spec
                        (ignorePaths (Cases.kept Cases.legacy)))
                     (JObj {[ "dest" := JStr "uploads" ]})) ∈ added
        ∧ count_stage 2 added = 1.
Proof.
  apply (legacy_multer_options_are_used (list RouteMetadata)
           Sample.new_context Sample.host Sample.modules Sample.join
           Cases.legacy
           Sample.empty_world
           (add_warnings Sample.empty_world (legacy_warnings Cases.legacy))
           (Cases.kept Cases.legacy)).
  - vm_compute. reflexivity.
  - reflexivity.
Defined.

Lemma response_validation_keeps_additional_by_default_witness :
  validateResponses (Cases.kept Cases.validated_responses)
  = JObj {[ "removeAdditional" := JBool false ]}
  ∧ ∀ spec w,
      ∃ added ropts,
        layers (installMiddleware (list RouteMetadata) Sample.new_context
                  Sample.host Sample.modules Sample.join
                  (Cases.kept Cases.validated_responses) spec w).1
        = layers w ++ added
        ∧ app_use (ResponseValidator
                     (apiDoc (Sample.new_context spec
                                (ignorePaths
                                   (Cases.kept Cases.validated_responses))))
                     ropts) ∈ added
        ∧ opt_get ropts "removeAdditional" = JBool false
        ∧ count_stage 5 added = 1.
Proof.
  apply (response_validation_keeps_additional_by_default
           (list RouteMetadata) Sample.new_context Sample.host
           Sample.modules Sample.join Cases.validated_responses
           Sample.empty_world Sample.empty_world
           (Cases.kept Cases.validated_responses)).
  - vm_compute. reflexivity.
  - reflexivity.
Defined.

Lemma validators_get_the_defaulted_options_witness :
  ∃ added,
    layers (installMiddleware (list RouteMetadata) Sample.new_context
              Sample.host Sample.modules Sample.join
              (Cases.kept Cases.validated_responses) [Sample.ping]
              Sample.empty_world).1
    = layers Sample.empty_world ++ added
    ∧ (∀ doc ropts,
         app_use (RequestValidator doc ropts) ∈ added
         ∨ app_use (ResponseValidator doc ropts) ∈ added →
         doc = apiDoc (Sample.new_context [Sample.ping]
                         (ignorePaths Cases.validated_responses))
         ∧ opt_get ropts "nullable" = JBool true
         ∧ opt_get ropts "coerceTypes" = JBool false
         ∧ opt_get ropts "format" = JStr "fast"
         ∧ opt_get ropts "unknownFormats" = JUndefined)
    ∧ (∀ doc ropts,
         app_use (RequestValidator doc ropts) ∈ added →
         opt_get ropts "removeAdditional" = JBool false
         ∧ opt_get ropts "useDefaults" = JBool true).
Proof.
  exact (validators_get_the_defaulted_options (list RouteMetadata)
           Sample.new_context Sample.host Sample.modules Sample.join
           Cases.validated_responses Sample.empty_world Sample.empty_world
           (Cases.kept Cases.validated_responses) eq_refl
           [Sample.ping] Sample.empty_world).
Defined.

Lemma without_operation_handlers_no_module_is_loaded_witness :
  ∃ added,
    (installMiddleware (list RouteMetadata) Sample.new_context
       Sample.host Sample.modules Sample.join (Cases.kept Sample.options)
       [Sample.ping; Sample.unpaired] Sample.empty_world).1
    = {| layers := layers Sample.empty_world ++ added;
         required := required Sample.empty_world;
         warnings := warnings Sample.empty_world |}
    ∧ Forall (λ l, stage l < 6) added.
Proof.
  apply (without_operation_handlers_no_module_is_loaded
           (list RouteMetadata) Sample.new_context Sample.host
           Sample.modules Sample.join Sample.options
           Sample.empty_world Sample.empty_world (Cases.kept Sample.options)).
  - vm_compute. reflexivity.
  - reflexivity.
Defined.

(** The parameter [id], with metadata that carries its extracted value. *)
Lemma path_param_override_spec_witness :
  ∃ params',
    path_param_override Sample.host
      (JObj {[ "pathParams" := JObj {[ "id" := JStr "1,2,3" ]} ]})
      {[ "id" := JStr "1%2C2%2C3" ]} "id" = Ret params'
    ∧ (to_boolean
         (opt_get (JObj {[ "pathParams" := JObj {[ "id" := JStr "1,2,3" ]} ]})
            "pathParams") = false →
       params' = {[ "id" := JStr "1%2C2%2C3" ]})
    ∧ (∀ value,
         to_boolean
           (opt_get
              (JObj {[ "pathParams" := JObj {[ "id" := JStr "1,2,3" ]} ]})
              "pathParams") = true →
         get_member Sample.host
           (opt_get
              (JObj {[ "pathParams" := JObj {[ "id" := JStr "1,2,3" ]} ]})
              "pathParams") "id" = Ret value →
         obj_member Sample.host params' "id"
         = js_or value
             (obj_member Sample.host {[ "id" := JStr "1%2C2%2C3" ]} "id"))
    ∧ (∀ other,
         other ≠ "id" →
         params' !! other
         = ({[ "id" := JStr "1%2C2%2C3" ]} : gmap string JsValue) !! other)
    ∧ path_param_override Sample.host
        (JObj {[ "pathParams" := JObj {[ "id" := JStr "1,2,3" ]} ]})
        params' "id" = Ret params'.
Proof.
  apply (path_param_override_spec Sample.host
           (JObj {[ "pathParams" := JObj {[ "id" := JStr "1,2,3" ]} ]})
           {[ "id" := JStr "1%2C2%2C3" ]} "id").
  discriminate.
Defined.

(** The path parameters of two routes that share [id]. *)
Example path_params_of_two_routes :
  installPathParams
    (Sample.context
       [{| expressRoute := "/users/:id"; method := "GET";
           pathParams := ["id"]; schema := ∅ |};
        {| expressRoute := "/users/:id/pets/:pet"; method := "GET";
           pathParams := ["id"; "pet"]; schema := ∅ |}])
    Sample.empty_world
  = ({| layers := [app_param "id"; app_param "pet"]; required := [];
        warnings := [] |}, Ret tt).
Proof. by vm_compute. Qed.

(** The override prefers the extracted value, and keeps the former one
    when the extracted value is the empty string.  For a parameter named
    as a member every object inherits, the extracted value reads as that
    member. *)
Example path_param_override_examples :
  path_param_override Sample.host
    (JObj {[ "pathParams" := JObj {[ "id" := JStr "1,2,3" ]} ]})
    {[ "id" := JStr "1%2C2%2C3" ]} "id"
  = Ret {[ "id" := JStr "1,2,3" ]}
  ∧ path_param_override Sample.host
      (JObj {[ "pathParams" := JObj {[ "id" := JStr "" ]} ]})
      {[ "id" := JStr "7" ]} "id"
    = Ret {[ "id" := JStr "7" ]}
  ∧ path_param_override Sample.host JUndefined {[ "id" := JStr "7" ]} "id"
    = Ret {[ "id" := JStr "7" ]}
  ∧ path_param_override Sample.host (JObj {[ "pathParams" := JObj ∅ ]})
      ∅ "toString"
    = Ret {[ "toString" := JFun "Object.prototype.toString" ]}.
Proof. split_and!; by vm_compute. Qed.
